(** * CloudShell Terraform shell: the execution state machine

    A shallow embedding of
      - [cloudshell/iac/terraform/constants.py]
      - [cloudshell/iac/terraform/services/tf_proc_exec.py]   (class [TfProcExec])
      - [cloudshell/iac/terraform/terraform_shell.py]         (class [TerraformShell])
    together with the properties the specification states about them.

    Python objects are modelled as follows.
      - [str] is [string]; the captured process output is the text obtained
        after [.decode('utf-8')].
      - a [dict] whose iteration order is observable (the backend secrets,
        iterated to build flags) is an association list in insertion order;
        a [dict] that is only merged, measured and looked up (the tag
        mappings, the service attributes, the status slots) is a [gmap].
      - an exception is a value of [PyExn]; a method is a function from the
        world before the call to an [Outcome] and the world after it.
      - collaborators whose code is outside the analysed files (subprocess,
        the file system, the downloader, the tagging package, ...) are the
        fields of the record [Collaborators]. *)

From Stdlib Require Import String Ascii ZArith List Bool Lia.
From stdpp Require Import base option list gmap strings fin_maps pretty.

(** ** constants.py *)

Module Constants.

(* Log levels *)
Definition ERROR_LOG_LEVEL : Z := 40.
Definition INFO_LOG_LEVEL : Z := 20.

(* Execution statuses *)
Definition EXECUTE_STATUS : string := "EXECUTE_STATUS".
Definition DESTROY_STATUS : string := "DESTROY_STATUS".
Definition APPLY_PASSED : string := "APPLY_PASSED".
Definition APPLY_FAILED : string := "APPLY_FAILED".
Definition PLAN_FAILED : string := "PLAN_FAILED".
Definition INIT_FAILED : string := "INIT_FAILED".
Definition DESTROY_FAILED : string := "DESTROY_FAILED".
Definition DESTROY_PASSED : string := "DESTROY_PASSED".
Definition NONE : string := "NONE".

(* Command types *)
Definition INIT : string := "INIT".
Definition PLAN : string := "PLAN".
Definition APPLY : string := "APPLY".
Definition OUTPUT : string := "OUTPUT".
Definition DESTROY : string := "DESTROY".
Definition ALLOWED_LOGGING_CMDS : list string := [INIT; PLAN; APPLY; DESTROY].

(* Sandbox data keys *)
Definition TF_WORKING_DIR : string := "TF_WORKING_DIR".

(* class ATTRIBUTE_NAMES: the attributes its body defines *)
Definition ATTRIBUTE_NAMES : list (string * string) :=
  [ ("TF_OUTPUTS", "Terraform Outputs");
    ("TF_SENSIITVE_OUTPUTS", "Terraform Sensitive Outputs");
    ("TF_INPUTS", "Terraform Inputs") ].

End Constants.
Export Constants.

(** ** The sandbox data handler *)

(** Modelled from the spec: [SandboxDataHandler] (services/sandox_data.py is
    not among the analysed files).  The Status Store Adapter of the
    specification "persists/retrieves two independent status values
    (execution status, destroy status) keyed by sandbox", with contract
    [getStatus(kind)], [setStatus(kind, value)]; a slot that was never written
    reads as the initial value NONE.  The same handler stores the path of the
    working directory. *)
Record SandboxData := mkSandboxData {
  sb_status : gmap string string;
  sb_tf_working_dir : string
}.

Definition get_status (sb : SandboxData) (status_type : string) : string :=
  default NONE (sb_status sb !! status_type).

Definition set_status (status_type status : string) (sb : SandboxData) : SandboxData :=
  {| sb_status := <[status_type := status]> (sb_status sb);
     sb_tf_working_dir := sb_tf_working_dir sb |}.

Definition get_tf_working_dir (sb : SandboxData) : string := sb_tf_working_dir sb.

Definition set_tf_working_dir (dir : string) (sb : SandboxData) : SandboxData :=
  {| sb_status := sb_status sb; sb_tf_working_dir := dir |}.

(** The sandbox data of a sandbox in which nothing ran yet. *)
Definition fresh_sandbox_data : SandboxData :=
  {| sb_status := ∅; sb_tf_working_dir := "" |}.

(** ** The run gatekeeper: [TfProcExec.can_execute_run], [TfProcExec.can_destroy_run] *)

(** Python's [x in [a; ...]] on a list of strings. *)
Definition py_in (x : string) (l : list string) : bool := bool_decide (x ∈ l).

Definition can_execute_run (sb : SandboxData) : bool :=
  let execute_status := get_status sb EXECUTE_STATUS in
  let destroy_status := get_status sb DESTROY_STATUS in
  if py_in execute_status [APPLY_FAILED] then false
  else if py_in destroy_status [DESTROY_FAILED] && String.eqb execute_status APPLY_PASSED
       then false
  else true.

Definition can_destroy_run (sb : SandboxData) : bool :=
  let execute_status := get_status sb EXECUTE_STATUS in
  if negb (py_in execute_status [APPLY_PASSED; APPLY_FAILED]) then false
  else true.

(** ** The output sanitizer *)

(** A regular expression of the shape [DIRTY_CHARS] uses: character classes,
    their greedy repetition, concatenation and ordered alternation.  A class
    is a list of inclusive code ranges. *)
Definition char_class := list (N * N).

Inductive regex :=
| Class (cls : char_class)
| Star (cls : char_class)
| Cat (r1 r2 : regex)
| Alt (r1 r2 : regex).

Definition in_class (cls : char_class) (c : ascii) : bool :=
  existsb (λ r, (r.1 <=? N_of_ascii c)%N && (N_of_ascii c <=? r.2)%N) cls.

(** Backtracking matcher with the priorities of Python's [re]: the
    continuation [k] is the rest of the pattern; the result is the text left
    after the first successful way to match.  A greedy star tries the longest
    run first and gives characters back one at a time. *)
Fixpoint star_run (cls : char_class) (s : string)
    (k : string → option string) : option string :=
  match s with
  | String c t =>
      if in_class cls c
      then match star_run cls t k with
           | Some r => Some r
           | None => k s
           end
      else k s
  | EmptyString => k s
  end.

Fixpoint re_match (r : regex) (s : string)
    (k : string → option string) : option string :=
  match r with
  | Class cls =>
      match s with
      | String c t => if in_class cls c then k t else None
      | EmptyString => None
      end
  | Star cls => star_run cls s k
  | Cat r1 r2 => re_match r1 s (λ s', re_match r2 s' k)
  | Alt r1 r2 =>
      match re_match r1 s k with
      | Some rest => Some rest
      | None => re_match r2 s k
      end
  end.

(** [re.match] at the head of [s]: the number of characters of the match. *)
Definition match_len (r : regex) (s : string) : option nat :=
  match re_match r s Some with
  | Some rest => Some (String.length s - String.length rest)
  | None => None
  end.

(** [re.sub(r, '', s)]: the matches are looked for from left to right, each
    search starting where the previous match ended; matched characters are
    dropped, the others kept.  [skip] counts the characters of the current
    match that are still to be dropped. *)
Fixpoint sub_from (r : regex) (skip : nat) (s : string) : string :=
  match s with
  | EmptyString => EmptyString
  | String c t =>
      match skip with
      | S n => sub_from r n t
      | O =>
          match match_len r s with
          | Some (S n) => sub_from r n t
          | _ => String c (sub_from r 0 t)
          end
      end
  end.

Definition re_sub_empty (r : regex) (s : string) : string := sub_from r 0 s.

(** constants.py, [DIRTY_CHARS], as [re.VERBOSE] reads it (white space and
    [#] comments outside character classes are not part of the pattern):
<<
      \x1B (?: [@-Z\\-_] | \[ [0-?]* [ -/]* [@-~] )
>>  *)
Definition ESC : ascii := "027"%char.

Definition code (c : ascii) : N := N_of_ascii c.

Definition DIRTY_CHARS : regex :=
  Cat (Class [(code ESC, code ESC)])                         (* ESC *)
      (Alt (Class [(code "@", code "Z"); (code "\", code "_")])
                                                  (* 7-bit C1 Fe (except CSI) *)
           (Cat (Class [(code "[", code "[")])    (* or [ for CSI *)
           (Cat (Star [(code "0", code "?")])     (* Parameter bytes *)
           (Cat (Star [(code " ", code "/")])     (* Intermediate bytes *)
                (Class [(code "@", code "~")]))))). (* Final byte *)

(** One substitution pass, [re.sub(DIRTY_CHARS, '', text)]. *)
Definition clean_once (text : string) : string := re_sub_empty DIRTY_CHARS text.

(** A text contains an escape sequence when [DIRTY_CHARS] matches at one of
    its positions. *)
Fixpoint has_escape (s : string) : bool :=
  match s with
  | EmptyString => false
  | String c t => bool_decide (is_Some (match_len DIRTY_CHARS s)) || has_escape t
  end.

(** Passes repeated while the text contains an escape sequence; [fuel]
    bounds the number of passes. *)
Fixpoint clean_passes (fuel : nat) (text : string) : string :=
  match fuel with
  | O => text
  | S fuel' => if has_escape text then clean_passes fuel' (clean_once text) else text
  end.

(** Modelled from the spec: [StringCleaner.get_clean_string]
    (services/string_cleaner.py is not among the analysed files; only the
    pattern [DIRTY_CHARS] is).  The specification gives the contract
    [clean(text) -> string]: "Removes ANSI/terminal escape sequences (CSI
    sequences and other C1 escape forms) so that logs and status strings are
    plain text.  Idempotent: clean(clean(x)) == clean(x).  Must not alter text
    containing no escape sequences."  The sequences are the matches of
    [DIRTY_CHARS]; they are removed until the text contains none.  A pass
    that finds a sequence removes at least two characters, so the text needs
    no more passes than it has characters.  A character outside ASCII is
    never in a class of the pattern, so the text can be read as its UTF-8
    bytes. *)
Definition get_clean_string (dirty_string : string) : string :=
  clean_passes (String.length dirty_string) dirty_string.

Definition esc (s : string) : string := String ESC s.

(** ** Exceptions, outcomes and the observable world *)

Inductive PyExn :=
| AttributeError (msg : string)
| ValueError (msg : string)
| TerraformExecutionError (msg : string) (std_out : option string)
| PyException (msg : string)                 (* [raise Exception(msg)] *)
| UnicodeDecodeError (msg : string)          (* raised by [bytes.decode('utf-8')] *)
| CollaboratorError (cls msg : string).      (* raised inside a collaborator *)

(** How a call ends.  [Diverged] is the result of a loop that was still
    running when the fuel given to it was used up. *)
Inductive Outcome (A : Type) :=
| Returned (a : A)
| Raised (e : PyExn)
| Diverged.
Arguments Returned {A} a.
Arguments Raised {A} e.
Arguments Diverged {A}.

(** What a run does to the outside, in the order it happens (the most
    recent event is the head of the trace). *)
Inductive Event :=
| LogInfo (msg : string)                           (* shell_helper.logger.info *)
| LogInfoTags (tags : gmap string string)
| LogError (msg : string)                          (* shell_helper.logger.error *)
| SandboxMessage (msg : string)                    (* sandbox_messages.write_message *)
| LiveStatus (status description : string)         (* set_service_live_status *)
| ExecLog (log_level : Z) (text : string)          (* self._exec_output_log.log *)
| Subprocess (argv : list string) (cwd : string)   (* subprocess.check_output *)
| StatusWritten (status_type status : string)      (* sb_data_handler.set_status *)
| WorkingDirWritten (dir : string)                 (* sb_data_handler.set_tf_working_dir *)
| ProviderInitialized
| TaggingStarted (dir : string) (tags inputs : gmap string string)
| OutputsSaved (json : string)
| TreeRemoved (path : string).                     (* shutil.rmtree *)

Record World := mkWorld {
  sandbox : SandboxData;
  trace : list Event
}.

(** A method: from the world before the call to its outcome and the world
    after it. *)
Definition M (A : Type) : Type := World → Outcome A * World.

Definition ret {A} (a : A) : M A := λ w, (Returned a, w).

Definition bind {A B} (m : M A) (k : A → M B) : M B := λ w,
  match m w with
  | (Returned a, w') => k a w'
  | (Raised e, w') => (Raised e, w')
  | (Diverged, w') => (Diverged, w')
  end.

#[global] Instance M_ret : MRet M := @ret.
#[global] Instance M_bind : MBind M := λ A B k m, bind m k.

Definition raise {A} (e : PyExn) : M A := λ w, (Raised e, w).

(** [try: body except Exception as e: handler(e); raise]. *)
Definition try_except_reraise {A} (body : M A) (handler : PyExn → M unit) : M A := λ w,
  match body w with
  | (Raised e, w') =>
      match handler e w' with
      | (Returned _, w'') => (Raised e, w'')
      | (Raised e', w'') => (Raised e', w'')
      | (Diverged, w'') => (Diverged, w'')
      end
  | r => r
  end.

Definition emit (e : Event) : M unit := λ w,
  (Returned (), {| sandbox := sandbox w; trace := e :: trace w |}).

Definition read_sandbox : M SandboxData := λ w, (Returned (sandbox w), w).

Definition write_sandbox (f : SandboxData → SandboxData) : M unit := λ w,
  (Returned (), {| sandbox := f (sandbox w); trace := trace w |}).

(** Lifting the answer of a collaborator. *)
Definition lift_sum {A} (r : PyExn + A) : M A :=
  match r with
  | inl e => raise e
  | inr a => ret a
  end.

Definition lift_opt (r : option PyExn) : M unit :=
  match r with
  | Some e => raise e
  | None => ret ()
  end.

(** The subprocess calls of a trace, oldest first. *)
Fixpoint proc_calls (t : list Event) : list (list string) :=
  match t with
  | [] => []
  | Subprocess argv _ :: t' => proc_calls t' ++ [argv]
  | _ :: t' => proc_calls t'
  end.

(** The status writes of a trace, oldest first. *)
Fixpoint status_writes (t : list Event) : list (string * string) :=
  match t with
  | [] => []
  | StatusWritten k v :: t' => status_writes t' ++ [(k, v)]
  | _ :: t' => status_writes t'
  end.

(** ** Collaborators *)

(** How [subprocess.check_output(argv, shell=True, cwd=..., stderr=STDOUT)]
    ends, and what [.decode('utf-8')] makes of the captured bytes: the process
    ran and exited with a return code, and the combined stdout and stderr are
    UTF-8, decoded to [output]; or the process exited and the captured bytes
    are not UTF-8, so that decoding them raises [UnicodeDecodeError] with
    [str(e) = message]; or [check_output] raised something else than
    [CalledProcessError] (the executable cannot be started, ...), with
    [str(e) = message]. *)
Inductive ProcResult :=
| Exited (returncode : Z) (output : string)
| ExitedUndecodable (returncode : Z) (message : string)
| NotRun (message : string).

Record TfVar := mkTfVar { var_name : string; var_value : string }.

Record Collaborators := mkCollaborators {
  (* os, subprocess, pathlib, shutil, json *)
  os_path_join : string → string → string;
  run_process : list string → string → ProcResult;
  os_path_isdir : string → bool;
  path_parent_absolute : string → string;    (* str(Path(p).parent.absolute()) *)
  os_listdir : string → PyExn + list string;
  shutil_rmtree : string → option PyExn;
  json_loads : string → PyExn + string;
  str_of_exn : PyExn → string;
  (* shell_helper.tf_service, shell_helper.attr_handler *)
  cloudshell_model_name : string;
  service_attributes : gmap string string;
  attr_handler_get_attribute : string → string;
  (* BackendHandler, for a remote state provider *)
  generate_backend_cfg_file : string → option PyExn;
  get_backend_secret_vars : string → PyExn + list (string * string);
  (* InputOutputService *)
  get_variables_from_var_attributes : list TfVar;
  get_variables_from_terraform_input_attribute : list TfVar;
  get_apply_tag_attribute : bool;
  get_variables_from_custom_tags_attribute : gmap string string;
  parse_and_save_outputs : string → option PyExn;
  (* TagsManager and the tagging package *)
  get_default_tags : gmap string string;
  start_tagging_terraform_resources :
    string → gmap string string → gmap string string → option PyExn;
  (* ProviderHandler, Downloader *)
  initialize_provider : option PyExn;
  download_terraform_module : PyExn + string;
  download_terraform_executable : string → option PyExn
}.

(** ** tf_proc_exec.py: class [TfProcExec] *)

Record TfProcExec := mkTfProcExec {
  _tf_workingdir : string      (* sb_data_handler.get_tf_working_dir() at __init__ *)
}.

Definition TfProcExec_init (sb : SandboxData) : TfProcExec :=
  {| _tf_workingdir := get_tf_working_dir sb |}.

(** A value [_init_backend_config] can return. *)
Inductive PyVal :=
| PyNone
| PyStr (s : string)
| PyDict (items : list (string * string)).

(** [v.keys()]. *)
Definition py_keys (v : PyVal) : PyExn + list string :=
  match v with
  | PyDict items => inr (items.*1)
  | PyStr _ => inl (AttributeError "'str' object has no attribute 'keys'")
  | PyNone => inl (AttributeError "'NoneType' object has no attribute 'keys'")
  end.

(** [v[key]] for a key taken from [v.keys()]. *)
Fixpoint assoc (key : string) (items : list (string * string)) : option string :=
  match items with
  | [] => None
  | (k, v) :: rest => if String.eqb k key then Some v else assoc key rest
  end.

Definition py_getitem (v : PyVal) (key : string) : string :=
  match v with
  | PyDict items => default "" (assoc key items)
  | _ => ""
  end.

Section TfProcExec.
Context (env : Collaborators) (self : TfProcExec).

Definition sb_set_status (status_type status : string) : M unit :=
  write_sandbox (set_status status_type status);;
  emit (StatusWritten status_type status).

Definition _set_service_status (status description : string) : M unit :=
  emit (LiveStatus status description).

Definition _write_to_exec_log (command log_data : string) (log_level : Z) : M unit :=
  let clean_output := get_clean_string log_data in
  emit (ExecLog log_level
          ("-------------------------------------------------=< " +:+ command +:+
           " START >=-------------------------------------------------" +:+ "
"));;
  emit (ExecLog log_level clean_output);;
  emit (ExecLog log_level
          ("-------------------------------------------------=< " +:+ command +:+
           " END >=---------------------------------------------------" +:+ "
")).

Definition execution_error_message : string :=
  "Error during Terraform Plan. For more information please look at the logs.".

Definition _run_tf_proc_with_command
    (cmd : list string) (command : string) (write_to_log : bool) : M string :=
  let tform_command := [os_path_join env (_tf_workingdir self) "terraform.exe"] ++ cmd in
  emit (Subprocess tform_command (_tf_workingdir self));;
  match run_process env tform_command (_tf_workingdir self) with
  | Exited 0 output =>
      let clean_output := get_clean_string output in
      (if write_to_log then _write_to_exec_log command clean_output INFO_LOG_LEVEL
       else ret ());;
      ret output
  | Exited _ output =>                                  (* CalledProcessError *)
      let clean_output := get_clean_string output in
      emit (LogError ("Error occurred while trying to execute Terraform | Output = "
                      +:+ clean_output));;
      (if py_in command ALLOWED_LOGGING_CMDS
       then _write_to_exec_log command clean_output ERROR_LOG_LEVEL
       else ret ());;
      raise (TerraformExecutionError execution_error_message (Some clean_output))
  | ExitedUndecodable 0 message =>     (* [.decode] raises in the [try]: Exception *)
      let clean_output := get_clean_string message in
      emit (LogError ("Error Running Terraform plan " +:+ clean_output));;
      raise (TerraformExecutionError execution_error_message None)
  | ExitedUndecodable _ message =>     (* [e.output.decode] raises in the handler *)
      raise (UnicodeDecodeError message)
  | NotRun message =>                                   (* any other Exception *)
      let clean_output := get_clean_string message in
      emit (LogError ("Error Running Terraform plan " +:+ clean_output));;
      raise (TerraformExecutionError execution_error_message None)
  end.

(** [f"{tf_var.name}={tf_var.value}"] after a ["-var"], for each variable. *)
Definition var_flags (tf_vars : list TfVar) : list string :=
  flat_map (λ tf_var, ["-var"; var_name tf_var +:+ "=" +:+ var_value tf_var]) tf_vars.

(** The variables mapped from attributes, extended with those of the
    "Terraform Inputs" attribute. *)
Definition all_tf_vars : list TfVar :=
  get_variables_from_var_attributes env ++
  get_variables_from_terraform_input_attribute env.

Definition _init_backend_config : M PyVal :=
  let backend_attribute_name := cloudshell_model_name env +:+ ".Remote State Provider" in
  match service_attributes env !! backend_attribute_name with
  | Some remote_state_provider =>
      if negb (String.eqb remote_state_provider "")
      then
        lift_opt (generate_backend_cfg_file env remote_state_provider);;
        secrets ← lift_sum (get_backend_secret_vars env remote_state_provider);
        ret (PyDict secrets)
      else ret PyNone                     (* the method ends without a return *)
  | None => ret (PyStr "")
  end.

Definition init_terraform : M unit :=
  emit (LogInfo "Performing Terraform Init");;
  emit (SandboxMessage "running Terraform Init...");;
  backend_config_vars ← _init_backend_config;
  let vars := ["init"; "-no-color"] in
  keys ← lift_sum (py_keys backend_config_vars);
  let vars := vars ++
    map (λ key, "-backend-config=" +:+ key +:+ "=" +:+ py_getitem backend_config_vars key)
        keys in
  try_except_reraise
    (_set_service_status "Progress 10" "Executing Terraform Init...";;
     _run_tf_proc_with_command vars INIT true;;
     _set_service_status "Progress 30" "Init Passed")
    (λ e,
     sb_set_status EXECUTE_STATUS INIT_FAILED;;
     _set_service_status "Error" "Init Failed").

Definition destroy_terraform : M unit :=
  emit (LogInfo "Performing Terraform Destroy");;
  emit (SandboxMessage "running Terraform Destroy...");;
  let cmd := ["destroy"; "-auto-approve"; "-no-color"] in
  let tf_vars := all_tf_vars in
  let cmd := cmd ++ var_flags tf_vars in
  try_except_reraise
    (_set_service_status "Progress 50" "Executing Terraform Destroy...";;
     _run_tf_proc_with_command cmd DESTROY true;;
     sb_set_status DESTROY_STATUS DESTROY_PASSED;;
     _set_service_status "Offline" "Destroy Passed")
    (λ e,
     sb_set_status DESTROY_STATUS DESTROY_FAILED;;
     _set_service_status "Error" "Destroy Failed").

(** [{**a, **b}]: the items of [a], then those of [b] written over them. *)
Definition dict_unpack2 (a b : gmap string string) : gmap string string := b ∪ a.

Definition tag_limit_message (n : nat) : string :=
  "AWS and Azure have a limit of 50 tags per resource, you have " +:+ pretty n.

Definition tag_terraform : M unit :=
  if negb (get_apply_tag_attribute env) then
    emit (LogInfo "Skipping Adding Tags to Terraform Resources");;
    emit (SandboxMessage "apply tags is false, skipping adding tags...");;
    ret ()
  else
    emit (LogInfo "Adding Tags to Terraform Resources");;
    emit (SandboxMessage "apply tags is true, generating tags...");;
    let tf_vars := all_tf_vars in
    let inputs_dict : gmap string string :=
      foldl (λ d tf_var, <[var_name tf_var := var_value tf_var]> d) ∅ tf_vars in
    let default_tags_dict := get_default_tags env in
    let custom_tags_inputs := get_variables_from_custom_tags_attribute env in
    let tags_dict := dict_unpack2 custom_tags_inputs default_tags_dict in
    if bool_decide (50 < size tags_dict) then
      raise (ValueError (tag_limit_message (size tags_dict)))
    else
      emit (LogInfo (_tf_workingdir self));;
      emit (LogInfoTags tags_dict);;
      emit (TaggingStarted (_tf_workingdir self) tags_dict inputs_dict);;
      lift_opt (start_tagging_terraform_resources env (_tf_workingdir self)
                  tags_dict inputs_dict).

Definition plan_terraform : M unit :=
  emit (LogInfo "Running Terraform Plan");;
  emit (SandboxMessage "generating Terraform Plan...");;
  let cmd := ["plan"; "-out"; "planfile"; "-input=false"; "-no-color"] in
  let tf_vars := all_tf_vars in
  let cmd := cmd ++ var_flags tf_vars in
  try_except_reraise
    (_set_service_status "Progress 40" "Executing Terraform Plan...";;
     _run_tf_proc_with_command cmd PLAN true;;
     _set_service_status "Progress 60" "Plan Passed")
    (λ e,
     sb_set_status EXECUTE_STATUS PLAN_FAILED;;
     _set_service_status "Error" "Plan Failed").

Definition apply_terraform : M unit :=
  emit (LogInfo "Running Terraform Apply");;
  emit (SandboxMessage "executing Terraform Apply...");;
  let cmd := ["apply"; "--auto-approve"; "-no-color"; "planfile"] in
  try_except_reraise
    (_set_service_status "Progress 70" "Executing Terraform Apply...";;
     _run_tf_proc_with_command cmd APPLY true;;
     sb_set_status EXECUTE_STATUS APPLY_PASSED;;
     _set_service_status "Online" "Apply Passed")
    (λ e,
     sb_set_status EXECUTE_STATUS APPLY_FAILED;;
     _set_service_status "Error" "Apply Failed").

Definition save_terraform_outputs : M unit :=
  try_except_reraise
    (emit (LogInfo "Running 'terraform output -json'");;
     let cmd := ["output"; "-json"] in
     tf_exec_output ← _run_tf_proc_with_command cmd OUTPUT false;
     unparsed_output_json ← lift_sum (json_loads env tf_exec_output);
     emit (OutputsSaved unparsed_output_json);;
     lift_opt (parse_and_save_outputs env unparsed_output_json))
    (λ e,
     emit (LogError ("Error occurred while trying to parse Terraform outputs -> "
                     +:+ str_of_exn env e))).

End TfProcExec.

(** ** Python objects the shell handles *)

(** [cls.name] on a class whose body defines the attributes [attributes]. *)
Definition class_getattr (cls_name : string) (attributes : list (string * string))
    (name : string) : PyExn + string :=
  match assoc name attributes with
  | Some v => inr v
  | None => inl (AttributeError ("type object '" +:+ cls_name +:+
                                 "' has no attribute '" +:+ name +:+ "'"))
  end.

(** The object found in the [_input_output_service] of an executor: the
    [InputOutputService] the steps of [TfProcExec] are written for, or a
    [BackendHandler].  [BackendHandler] (services/backend_handler.py, not
    among the analysed files) is taken to have the methods tf_proc_exec.py
    calls on it, [generate_backend_cfg_file] and [get_backend_secret_vars],
    and none of [InputOutputService]. *)
Inductive ServiceObject :=
| AnInputOutputService
| ABackendHandler.

Definition no_such_method {A} (method : string) : M A :=
  raise (AttributeError ("'BackendHandler' object has no attribute '" +:+ method +:+ "'")).

(** The steps of an executor, by the object in its [_input_output_service]:
    with an [InputOutputService] they are the steps of [TfProcExec] above;
    with a [BackendHandler] a step runs up to its first call of a method of
    [self._input_output_service], which raises [AttributeError]. *)
Section BoundExecutor.
Context (env : Collaborators) (self : TfProcExec) (io : ServiceObject).

Definition tag_terraform_on : M unit :=
  match io with
  | AnInputOutputService => tag_terraform env self
  | ABackendHandler => no_such_method "get_apply_tag_attribute"
  end.

Definition plan_terraform_on : M unit :=
  match io with
  | AnInputOutputService => plan_terraform env self
  | ABackendHandler =>
      emit (LogInfo "Running Terraform Plan");;
      emit (SandboxMessage "generating Terraform Plan...");;
      no_such_method "get_variables_from_var_attributes"
  end.

Definition destroy_terraform_on : M unit :=
  match io with
  | AnInputOutputService => destroy_terraform env self
  | ABackendHandler =>
      emit (LogInfo "Performing Terraform Destroy");;
      emit (SandboxMessage "running Terraform Destroy...");;
      no_such_method "get_variables_from_var_attributes"
  end.

Definition save_terraform_outputs_on : M unit :=
  match io with
  | AnInputOutputService => save_terraform_outputs env self
  | ABackendHandler =>
      try_except_reraise
        (emit (LogInfo "Running 'terraform output -json'");;
         let cmd := ["output"; "-json"] in
         tf_exec_output ← _run_tf_proc_with_command env self cmd OUTPUT false;
         unparsed_output_json ← lift_sum (json_loads env tf_exec_output);
         no_such_method "parse_and_save_outputs")
        (λ e,
         emit (LogError ("Error occurred while trying to parse Terraform outputs -> "
                         +:+ str_of_exn env e)))
  end.

End BoundExecutor.

(** ** terraform_shell.py: class [TerraformShell] *)

Section TerraformShell.
Context (env : Collaborators).

(** [dir and os.path.isdir(dir)], as a truth value. *)
Definition _does_working_dir_exists (dir : string) : bool :=
  negb (String.eqb dir "") && os_path_isdir env dir.

Definition _prepare_tf_working_dir : M string :=
  sb ← read_sandbox;
  let tf_working_dir := get_tf_working_dir sb in
  if negb (_does_working_dir_exists tf_working_dir) then
    tf_working_dir ← lift_sum (download_terraform_module env);
    lift_opt (download_terraform_executable env tf_working_dir);;
    write_sandbox (set_tf_working_dir tf_working_dir);;
    emit (WorkingDirWritten tf_working_dir);;
    ret tf_working_dir
  else
    emit (LogInfo ("Using existing working dir = " +:+ tf_working_dir));;
    ret tf_working_dir.

Definition _destroy_passed (sb : SandboxData) : bool :=
  String.eqb (get_status sb DESTROY_STATUS) DESTROY_PASSED.

(** [ATTRIBUTE_NAMES.REMOTE_STATE_PROVIDER], evaluated on the class of
    constants.py. *)
Definition REMOTE_STATE_PROVIDER_attribute : PyExn + string :=
  class_getattr "ATTRIBUTE_NAMES" ATTRIBUTE_NAMES "REMOTE_STATE_PROVIDER".

Definition _using_remote_state : M bool :=
  attribute_name ← lift_sum REMOTE_STATE_PROVIDER_attribute;
  ret (negb (String.eqb (attr_handler_get_attribute env attribute_name) "")).

(** The [while not tmp_folder_found] loop of [_delete_local_temp_dir],
    started with [tf_path]: the value of [tf_path] when the loop ends.
    Each unit of fuel pays for one iteration. *)
Fixpoint find_tmp_folder (fuel : nat) (tf_path : string) : Outcome string :=
  match fuel with
  | O => Diverged
  | S fuel' =>
      let parent := path_parent_absolute env tf_path in
      match os_listdir env parent with
      | inl e => Raised e
      | inr objects_in_folder =>
          if (length objects_in_folder =? 2)%nat &&
             (py_in "REPO" objects_in_folder && py_in "repo.zip" objects_in_folder)
          then Returned parent
          else find_tmp_folder fuel' parent
      end
  end.

Definition _delete_local_temp_dir (fuel : nat) (tf_working_dir : string) : M unit :=
  tf_path_str ← (λ w, (find_tmp_folder fuel tf_working_dir, w));
  lift_opt (shutil_rmtree env tf_path_str);;
  emit (TreeRemoved tf_path_str);;
  write_sandbox (set_tf_working_dir "");;
  emit (WorkingDirWritten "").

(** [TfProcExec(shell_helper, sandbox_data_handler, backend_handler,
    input_output_service)] against [__init__(self, shell_helper,
    sb_data_handler, input_output_service, reservation)]: the third argument,
    the backend handler, becomes the [_input_output_service] of the
    executor (and the input/output service its [_reservation]).  The
    constructors [BackendHandler(...)] and [InputOutputService(...)] called
    before it, and the creation of the executor's log, are taken to
    return. *)
Definition _create_tf_proc_executer : M (TfProcExec * ServiceObject) :=
  sb ← read_sandbox;
  ret (TfProcExec_init sb, ABackendHandler).

Definition execute_blocked_message : string :=
  "Execution is not enabled due to either failed previous Execution (*Try Destroy first) or " +:+
  "Successfully executed previously without successfully destroying it first".

Definition execute_terraform (fuel : nat) : M unit :=
  tf_working_dir ← _prepare_tf_working_dir;
  tf_proc_executer ← _create_tf_proc_executer;
  sb ← read_sandbox;
  if can_execute_run sb then
    lift_opt (initialize_provider env);;
    emit ProviderInitialized;;
    init_terraform env tf_proc_executer.1;;
    tag_terraform_on env tf_proc_executer.1 tf_proc_executer.2;;
    plan_terraform_on env tf_proc_executer.1 tf_proc_executer.2;;
    apply_terraform env tf_proc_executer.1;;
    save_terraform_outputs_on env tf_proc_executer.1 tf_proc_executer.2;;
    using_remote_state ← _using_remote_state;
    if (using_remote_state : bool)
    then _delete_local_temp_dir fuel tf_working_dir
    else ret ()
  else
    let err_msg := execute_blocked_message in
    emit (SandboxMessage err_msg);;
    raise (PyException err_msg).

End TerraformShell.

(** The argument vector [_run_tf_proc_with_command] hands to the subprocess
    for the command line [cmd]. *)
Definition tform_command (env : Collaborators) (self : TfProcExec)
    (cmd : list string) : list string :=
  [os_path_join env (_tf_workingdir self) "terraform.exe"] ++ cmd.

(** ** A POSIX host and a sample sandbox

    A concrete set of collaborators on which the definitions above can be
    run: POSIX path functions, a directory table standing for the file
    system, and a Terraform executable whose exit codes are chosen by the
    caller. *)
Module Sample.

Fixpoint split_on (sep : ascii) (s : string) : list string :=
  match s with
  | EmptyString => [EmptyString]
  | String c t =>
      if Ascii.eqb c sep then EmptyString :: split_on sep t
      else match split_on sep t with
           | [] => [String c EmptyString]
           | x :: xs => String c x :: xs
           end
  end.

Fixpoint ends_with_slash (s : string) : bool :=
  match s with
  | EmptyString => false
  | String c EmptyString => Ascii.eqb c "/"
  | String _ t => ends_with_slash t
  end.

(** [posixpath.join(a, b)]. *)
Definition posixpath_join (a b : string) : string :=
  if String.prefix "/" b then b
  else if String.eqb a "" || ends_with_slash a then a +:+ b
  else a +:+ "/" +:+ b.

(** The components of an absolute path, and the path of given components. *)
Definition components (p : string) : list string :=
  filter (λ x, x ≠ EmptyString) (split_on "/" p).

Definition of_components (cs : list string) : string :=
  "/" +:+ String.concat "/" cs.

(** [str(Path(p).parent.absolute())] for an absolute [p]: the last
    component is dropped, and the root is its own parent. *)
Definition posix_parent (p : string) : string :=
  of_components (removelast (components p)).

(** A file system as the table of its directories and their entries. *)
Definition listdir (fs : list (string * list string)) (p : string)
    : PyExn + list string :=
  match list_find (λ d, d.1 = p) fs with
  | Some (_, (_, entries)) => inr entries
  | None => inl (CollaboratorError "FileNotFoundError" p)
  end.

Definition isdir (fs : list (string * list string)) (p : string) : bool :=
  bool_decide (is_Some (list_find (λ d, d.1 = p) fs)).

(** A staging directory as the downloader leaves it. *)
Definition staged_fs : list (string * list string) :=
  [ ("/", ["tmp"]);
    ("/tmp", ["tmp8k2"]);
    ("/tmp/tmp8k2", ["REPO"; "repo.zip"]);
    ("/tmp/tmp8k2/REPO", ["hello"]);
    ("/tmp/tmp8k2/REPO/hello", ["main.tf"; "terraform.exe"]) ].

Definition staged_dir : string := "/tmp/tmp8k2/REPO/hello".

(** A working directory none of whose ancestors is a staging directory. *)
Definition plain_fs : list (string * list string) :=
  [ ("/", ["srv"]);
    ("/srv", ["tf"]);
    ("/srv/tf", ["main.tf"; "terraform.exe"]) ].

Definition plain_dir : string := "/srv/tf".

(** The Terraform executable: every subcommand exits with 0 but [apply],
    which exits with [apply_code]. *)
Definition terraform (apply_code : Z) (argv : list string) (cwd : string) : ProcResult :=
  match argv !! 1 with
  | Some "init" => Exited 0 "Terraform has been successfully initialized!"
  | Some "plan" => Exited 0 "Plan: 1 to add, 0 to change, 0 to destroy."
  | Some "apply" =>
      if (apply_code =? 0)%Z
      then Exited 0 "Apply complete! Resources: 1 added, 0 changed, 0 destroyed."
      else Exited apply_code (esc "[31m" +:+ "Error: creating resource" +:+ esc "[0m")
  | Some "output" => Exited 0 "{}"
  | Some "destroy" => Exited 0 "Destroy complete! Resources: 1 destroyed."
  | _ => Exited 127 "Terraform has no command by that name"
  end.

Definition model_name : string := "Generic Terraform Service".

Definition env (fs : list (string * list string)) (apply_code : Z)
    (attributes : gmap string string) (apply_tags : bool)
    (custom_tags default_tags : gmap string string) : Collaborators :=
  {| os_path_join := posixpath_join;
     run_process := terraform apply_code;
     os_path_isdir := isdir fs;
     path_parent_absolute := posix_parent;
     os_listdir := listdir fs;
     shutil_rmtree := λ _, None;
     json_loads := λ s, inr s;
     str_of_exn := λ _, "error";
     cloudshell_model_name := model_name;
     service_attributes := attributes;
     attr_handler_get_attribute :=
       λ name, default "" (attributes !! (model_name +:+ "." +:+ name));
     generate_backend_cfg_file := λ _, None;
     get_backend_secret_vars := λ _, inr [("access_key", "s3cr3t")];
     get_variables_from_var_attributes := [mkTfVar "region" "eu-west-1"];
     get_variables_from_terraform_input_attribute := [mkTfVar "size" "small"];
     get_apply_tag_attribute := apply_tags;
     get_variables_from_custom_tags_attribute := custom_tags;
     parse_and_save_outputs := λ _, None;
     get_default_tags := default_tags;
     start_tagging_terraform_resources := λ _ _ _, None;
     initialize_provider := None;
     download_terraform_module := inr staged_dir;
     download_terraform_executable := λ _, None |}.

(** The service attributes with a remote state provider, and without. *)
Definition with_backend : gmap string string :=
  {[ model_name +:+ ".Remote State Provider" := "azure-backend" ]}.

Definition without_backend : gmap string string := ∅.

Definition blank_backend : gmap string string :=
  {[ model_name +:+ ".Remote State Provider" := "" ]}.

(** [n] tags named [tag0], [tag1], ... *)
Definition numbered_tags (n : nat) : gmap string string :=
  list_to_map (map (λ i, ("tag" +:+ pretty i, "x")) (seq 0 n)).

(** A sandbox in which nothing ran yet, and one whose working directory is
    already staged. *)
Definition fresh_world : World :=
  {| sandbox := fresh_sandbox_data; trace := [] |}.

Definition staged_world (dir : string) : World :=
  {| sandbox := set_tf_working_dir dir fresh_sandbox_data; trace := [] |}.

End Sample.

(** ** Vocabulary of the statements *)

(** The process ran and exited with code 0, and its output is UTF-8 text. *)
Definition exit_ok (res : ProcResult) : bool :=
  match res with
  | Exited 0 _ => true
  | _ => false
  end.

(** The exception the runner raises when it does not return. *)
Definition runner_error (res : ProcResult) : PyExn :=
  match res with
  | Exited _ output =>
      TerraformExecutionError execution_error_message (Some (get_clean_string output))
  | ExitedUndecodable 0 _ => TerraformExecutionError execution_error_message None
  | ExitedUndecodable _ message => UnicodeDecodeError message
  | NotRun _ => TerraformExecutionError execution_error_message None
  end.

(** The error of a call of [get_apply_tag_attribute] on a backend handler. *)
Definition tag_attribute_error : PyExn :=
  AttributeError "'BackendHandler' object has no attribute 'get_apply_tag_attribute'".

(** The command lines of the five commands. *)
Definition init_cmd (secrets : list (string * string)) : list string :=
  ["init"; "-no-color"] ++
  map (λ key, "-backend-config=" +:+ key +:+ "=" +:+ py_getitem (PyDict secrets) key)
      (secrets.*1).

Definition plan_cmd (env : Collaborators) : list string :=
  ["plan"; "-out"; "planfile"; "-input=false"; "-no-color"] ++ var_flags (all_tf_vars env).

Definition apply_cmd : list string := ["apply"; "--auto-approve"; "-no-color"; "planfile"].

Definition destroy_cmd (env : Collaborators) : list string :=
  ["destroy"; "-auto-approve"; "-no-color"] ++ var_flags (all_tf_vars env).

Definition output_cmd : list string := ["output"; "-json"].

(** An argument vector as the specification describes it: the executable in
    the working directory, the subcommand, then flags with [-no-color] among
    them. *)
Definition argv_with_no_color (env : Collaborators) (self : TfProcExec)
    (subcommand : string) (argv : list string) : Prop :=
  ∃ flags, argv = os_path_join env (_tf_workingdir self) "terraform.exe"
                    :: subcommand :: flags
           ∧ "-no-color" ∈ flags.

(** The name of the service attribute that selects the remote state backend. *)
Definition backend_attribute_name (env : Collaborators) : string :=
  cloudshell_model_name env +:+ ".Remote State Provider".

(** What [_init_backend_config] answers, read off the service attributes and
    the backend handler. *)
Definition backend_config_answer (env : Collaborators) : Outcome PyVal :=
  match service_attributes env !! backend_attribute_name env with
  | None => Returned (PyStr "")
  | Some remote_state_provider =>
      if String.eqb remote_state_provider "" then Returned PyNone
      else match generate_backend_cfg_file env remote_state_provider with
           | Some e => Raised e
           | None =>
               match get_backend_secret_vars env remote_state_provider with
               | inl e => Raised e
               | inr secrets => Returned (PyDict secrets)
               end
           end
  end.

(** The [n]-th ancestor of a path: [n] times [.parent.absolute()]. *)
Fixpoint ancestor (env : Collaborators) (n : nat) (p : string) : string :=
  match n with
  | O => p
  | S n' => ancestor env n' (path_parent_absolute env p)
  end.

(** The test [_delete_local_temp_dir] makes on the listing of a directory. *)
Definition staging_listing (objects_in_folder : list string) : bool :=
  (length objects_in_folder =? 2)%nat &&
  (py_in "REPO" objects_in_folder && py_in "repo.zip" objects_in_folder).

(** ** terraform_shell.py: the destroy workflow *)

Module TerraformShell.

(** [not get_attribute(ATTRIBUTE_NAMES.REMOTE_STATE_PROVIDER) and not
    _does_working_dir_exists(get_tf_working_dir())]: the argument of
    [get_attribute] is evaluated first. *)
Definition _validate_remote_backend_or_existing_working_dir
    (env : Collaborators) : M unit :=
  attribute_name ← lift_sum REMOTE_STATE_PROVIDER_attribute;
  sb ← read_sandbox;
  if String.eqb (attr_handler_get_attribute env attribute_name) "" &&
     negb (_does_working_dir_exists env (get_tf_working_dir sb))
  then raise (ValueError ("Missing local folder " +:+ get_tf_working_dir sb))
  else ret ().

Definition destroy_blocked_message : string :=
  "Destroy blocked because APPLY was not yet executed".

Definition missing_directory_message : string :=
  "Destroy failed due to missing local directory".

Definition destroy_terraform (env : Collaborators) (fuel : nat) : M unit :=
  _validate_remote_backend_or_existing_working_dir env;;
  tf_working_dir ← _prepare_tf_working_dir env;
  if negb (String.eqb tf_working_dir "") then
    lift_opt (initialize_provider env);;
    emit ProviderInitialized;;
    tf_proc_executer ← _create_tf_proc_executer;
    sb ← read_sandbox;
    if can_destroy_run sb then
      init_terraform env tf_proc_executer.1;;
      destroy_terraform_on env tf_proc_executer.1 tf_proc_executer.2;;
      using_remote_state ← _using_remote_state env;
      sb' ← read_sandbox;
      if (using_remote_state : bool) || _destroy_passed sb'
      then _delete_local_temp_dir env fuel tf_working_dir
      else ret ()
    else raise (PyException destroy_blocked_message)
  else raise (PyException missing_directory_message).

End TerraformShell.

(** ** More vocabulary: what a trace shows *)

(** The lines written to the execution log, oldest first. *)
Fixpoint exec_log (t : list Event) : list (Z * string) :=
  match t with
  | [] => []
  | ExecLog level text :: t' => exec_log t' ++ [(level, text)]
  | _ :: t' => exec_log t'
  end.

(** The JSON documents handed to [parse_and_save_outputs], oldest first. *)
Fixpoint saved_outputs (t : list Event) : list string :=
  match t with
  | [] => []
  | OutputsSaved json :: t' => saved_outputs t' ++ [json]
  | _ :: t' => saved_outputs t'
  end.

(** The directories removed with [shutil.rmtree], oldest first. *)
Fixpoint removed_trees (t : list Event) : list string :=
  match t with
  | [] => []
  | TreeRemoved p :: t' => removed_trees t' ++ [p]
  | _ :: t' => removed_trees t'
  end.

(** The live status the service shows: the most recent one reported. *)
Fixpoint live_status (t : list Event) : option (string * string) :=
  match t with
  | [] => None
  | LiveStatus status description :: _ => Some (status, description)
  | _ :: t' => live_status t'
  end.

(** The value of the last variable named [k] in a list of variables. *)
Fixpoint last_value (k : string) (tf_vars : list TfVar) : option string :=
  match tf_vars with
  | [] => None
  | tf_var :: rest =>
      match last_value k rest with
      | Some v => Some v
      | None => if String.eqb (var_name tf_var) k then Some (var_value tf_var) else None
      end
  end.

(** The first and last line [_write_to_exec_log] writes around a transcript. *)
Definition log_start_line (command : string) : string :=
  "-------------------------------------------------=< " +:+ command +:+
  " START >=-------------------------------------------------" +:+ "
".

Definition log_end_line (command : string) : string :=
  "-------------------------------------------------=< " +:+ command +:+
  " END >=---------------------------------------------------" +:+ "
".

(** Character classes of [DIRTY_CHARS]. *)
Definition class_Fe : char_class := [(code "@", code "Z"); (code "\", code "_")].
Definition class_param : char_class := [(code "0", code "?")].
Definition class_intermediate : char_class := [(code " ", code "/")].
Definition class_final : char_class := [(code "@", code "~")].

(** All characters of a text are in a class. *)
Fixpoint all_in_class (cls : char_class) (s : string) : bool :=
  match s with
  | EmptyString => true
  | String c t => in_class cls c && all_in_class cls t
  end.

(** ** Faulty hosts

    The sample sandbox with one collaborator replaced, to run the failure
    paths. *)
Module Faults.

Definition with_run_process (env : Collaborators)
    (f : list string → string → ProcResult) : Collaborators :=
  {| os_path_join := os_path_join env;
     run_process := f;
     os_path_isdir := os_path_isdir env;
     path_parent_absolute := path_parent_absolute env;
     os_listdir := os_listdir env;
     shutil_rmtree := shutil_rmtree env;
     json_loads := json_loads env;
     str_of_exn := str_of_exn env;
     cloudshell_model_name := cloudshell_model_name env;
     service_attributes := service_attributes env;
     attr_handler_get_attribute := attr_handler_get_attribute env;
     generate_backend_cfg_file := generate_backend_cfg_file env;
     get_backend_secret_vars := get_backend_secret_vars env;
     get_variables_from_var_attributes := get_variables_from_var_attributes env;
     get_variables_from_terraform_input_attribute :=
       get_variables_from_terraform_input_attribute env;
     get_apply_tag_attribute := get_apply_tag_attribute env;
     get_variables_from_custom_tags_attribute :=
       get_variables_from_custom_tags_attribute env;
     parse_and_save_outputs := parse_and_save_outputs env;
     get_default_tags := get_default_tags env;
     start_tagging_terraform_resources := start_tagging_terraform_resources env;
     initialize_provider := initialize_provider env;
     download_terraform_module := download_terraform_module env;
     download_terraform_executable := download_terraform_executable env |}.

Definition with_rmtree (env : Collaborators)
    (f : string → option PyExn) : Collaborators :=
  {| os_path_join := os_path_join env;
     run_process := run_process env;
     os_path_isdir := os_path_isdir env;
     path_parent_absolute := path_parent_absolute env;
     os_listdir := os_listdir env;
     shutil_rmtree := f;
     json_loads := json_loads env;
     str_of_exn := str_of_exn env;
     cloudshell_model_name := cloudshell_model_name env;
     service_attributes := service_attributes env;
     attr_handler_get_attribute := attr_handler_get_attribute env;
     generate_backend_cfg_file := generate_backend_cfg_file env;
     get_backend_secret_vars := get_backend_secret_vars env;
     get_variables_from_var_attributes := get_variables_from_var_attributes env;
     get_variables_from_terraform_input_attribute :=
       get_variables_from_terraform_input_attribute env;
     get_apply_tag_attribute := get_apply_tag_attribute env;
     get_variables_from_custom_tags_attribute :=
       get_variables_from_custom_tags_attribute env;
     parse_and_save_outputs := parse_and_save_outputs env;
     get_default_tags := get_default_tags env;
     start_tagging_terraform_resources := start_tagging_terraform_resources env;
     initialize_provider := initialize_provider env;
     download_terraform_module := download_terraform_module env;
     download_terraform_executable := download_terraform_executable env |}.

(** The sample Terraform, except that the subcommand [failing] exits with 1. *)
Definition terraform_failing (failing : string) (argv : list string) (cwd : string)
    : ProcResult :=
  if bool_decide (argv !! 1 = Some failing)
  then Exited 1 (esc "[31m" +:+ "Error: " +:+ failing +:+ " failed" +:+ esc "[0m")
  else Sample.terraform 0 argv cwd.

(** A Terraform whose output is not UTF-8: every subcommand exits with
    [returncode], and decoding what it wrote raises. *)
Definition terraform_undecodable (returncode : Z) (argv : list string) (cwd : string)
    : ProcResult :=
  ExitedUndecodable returncode
    "'utf-8' codec can't decode byte 0xff in position 0: invalid start byte".

(** The sample sandbox with a remote state provider, and the same with the
    subcommand [failing] exiting with 1. *)
Definition healthy : Collaborators :=
  Sample.env Sample.staged_fs 0 Sample.with_backend false ∅ ∅.

Definition failing_at (failing : string) : Collaborators :=
  with_run_process healthy (terraform_failing failing).

(** A staged sandbox with given statuses. *)
Definition world_with (execute_status destroy_status : string) : World :=
  {| sandbox := set_status EXECUTE_STATUS execute_status
                  (set_status DESTROY_STATUS destroy_status
                     (set_tf_working_dir Sample.staged_dir fresh_sandbox_data));
     trace := [] |}.

Definition staged_exec : TfProcExec := mkTfProcExec Sample.staged_dir.

End Faults.

(** What [_write_to_exec_log] adds to the execution log. *)
Definition transcript (log_level : Z) (command log_data : string) : list (Z * string) :=
  [ (log_level, log_start_line command);
    (log_level, get_clean_string log_data);
    (log_level, log_end_line command) ].

(** What the downloader answers when a working directory has to be staged:
    the module, then the executable into it. *)
Definition staged_by_downloader (env : Collaborators) : Outcome string :=
  match download_terraform_module env with
  | inl e => Raised e
  | inr tf_working_dir =>
      match download_terraform_executable env tf_working_dir with
      | Some e => Raised e
      | None => Returned tf_working_dir
      end
  end.

(** * Properties *)

(** ** Properties of the gatekeeper *)

Lemma get_set_status_eq k v sb : get_status (set_status k v sb) k = v.
Proof. unfold get_status, set_status; simpl. by rewrite lookup_insert_eq. Qed.

Lemma get_set_status_ne k k' v sb :
  k ≠ k' → get_status (set_status k v sb) k' = get_status sb k'.
Proof. intros Hne. unfold get_status, set_status; simpl. by rewrite lookup_insert_ne. Qed.

Lemma py_in_singleton x a : py_in x [a] = true ↔ x = a.
Proof.
  unfold py_in. rewrite bool_decide_eq_true. rewrite list_elem_of_singleton. done.
Qed.

Lemma py_in_pair x a b : py_in x [a; b] = true ↔ x = a ∨ x = b.
Proof.
  unfold py_in. rewrite bool_decide_eq_true.
  rewrite elem_of_cons, list_elem_of_singleton. done.
Qed.

Lemma can_execute_run_false_iff sb :
  can_execute_run sb = false ↔
  get_status sb EXECUTE_STATUS = APPLY_FAILED ∨
  (get_status sb DESTROY_STATUS = DESTROY_FAILED ∧
   get_status sb EXECUTE_STATUS = APPLY_PASSED).
Proof.
  unfold can_execute_run.
  destruct (py_in (get_status sb EXECUTE_STATUS) [APPLY_FAILED]) eqn:He.
  - apply py_in_singleton in He. intuition congruence.
  - assert (get_status sb EXECUTE_STATUS ≠ APPLY_FAILED) as Hne.
    { intros E. apply py_in_singleton in E. congruence. }
    destruct (py_in (get_status sb DESTROY_STATUS) [DESTROY_FAILED]) eqn:Hd; simpl.
    + apply py_in_singleton in Hd.
      destruct (String.eqb_spec (get_status sb EXECUTE_STATUS) APPLY_PASSED);
        intuition congruence.
    + assert (get_status sb DESTROY_STATUS ≠ DESTROY_FAILED) as Hnd.
      { intros E. apply py_in_singleton in E. congruence. }
      intuition congruence.
Qed.

Lemma can_destroy_run_true_iff sb :
  can_destroy_run sb = true ↔
  get_status sb EXECUTE_STATUS = APPLY_PASSED ∨
  get_status sb EXECUTE_STATUS = APPLY_FAILED.
Proof.
  unfold can_destroy_run. rewrite <- py_in_pair.
  destruct (py_in _ _); simpl; intuition congruence.
Qed.

(** C1. For every pair of stored statuses [e] (execution) and [d] (destroy):
    [can_execute_run] is false when [e] is APPLY_FAILED, false when [d] is
    DESTROY_FAILED and [e] is APPLY_PASSED, and true in every other case, the
    initial NONE/NONE state included; [can_destroy_run] is true exactly when
    [e] is APPLY_PASSED or APPLY_FAILED. *)
Theorem gatekeeper_truth_table (sb : SandboxData) (e d : string) :
  get_status sb EXECUTE_STATUS = e →
  get_status sb DESTROY_STATUS = d →
  (e = APPLY_FAILED → can_execute_run sb = false) ∧
  (d = DESTROY_FAILED → e = APPLY_PASSED → can_execute_run sb = false) ∧
  (e ≠ APPLY_FAILED → ¬ (d = DESTROY_FAILED ∧ e = APPLY_PASSED) →
     can_execute_run sb = true) ∧
  (e = NONE → d = NONE → can_execute_run sb = true) ∧
  (can_destroy_run sb = true ↔ e = APPLY_PASSED ∨ e = APPLY_FAILED) ∧
  (e ≠ APPLY_PASSED → e ≠ APPLY_FAILED → can_destroy_run sb = false).
Proof.
  intros He Hd.
  pose proof (can_execute_run_false_iff sb) as Hx.
  pose proof (can_destroy_run_true_iff sb) as Hy.
  rewrite He, Hd in Hx. rewrite He in Hy.
  repeat split.
  - intros ->. apply Hx. by left.
  - intros -> ->. apply Hx. by right.
  - intros H1 H2. apply not_false_iff_true. intros E.
    apply Hx in E as [E|E]; [by destruct H1 | by destruct H2].
  - intros -> ->. apply not_false_iff_true. intros E.
    apply Hx in E as [E|[_ E]]; discriminate E.
  - apply Hy.
  - apply Hy.
  - intros H1 H2. apply not_true_iff_false. intros E.
    apply Hy in E as [E|E]; [by destruct H1 | by destruct H2].
Qed.

Lemma gatekeeper_truth_table_witness :
  (NONE = NONE → NONE = NONE → can_execute_run fresh_sandbox_data = true) ∧
  (can_destroy_run fresh_sandbox_data = true ↔ NONE = APPLY_PASSED ∨ NONE = APPLY_FAILED).
Proof.
  pose proof (gatekeeper_truth_table fresh_sandbox_data NONE NONE eq_refl eq_refl) as H.
  split; [apply H | apply H].
Defined.

(** C10. When the stored execution status is INIT_FAILED or PLAN_FAILED (the
    values [init_terraform] and [plan_terraform] write on failure),
    [can_execute_run] is true, whatever the destroy status, and
    [can_destroy_run] is false. *)
Theorem gatekeeper_init_plan_failed (sb : SandboxData) :
  get_status sb EXECUTE_STATUS = INIT_FAILED ∨
  get_status sb EXECUTE_STATUS = PLAN_FAILED →
  can_execute_run sb = true ∧ can_destroy_run sb = false.
Proof.
  intros He. split.
  - apply not_false_iff_true. intros E.
    apply can_execute_run_false_iff in E.
    destruct He as [He|He]; rewrite He in E; destruct E as [E|[_ E]]; discriminate E.
  - apply not_true_iff_false. intros E.
    apply can_destroy_run_true_iff in E.
    destruct He as [He|He]; rewrite He in E; destruct E as [E|E]; discriminate E.
Qed.

Lemma gatekeeper_init_plan_failed_witness :
  can_execute_run (set_status EXECUTE_STATUS INIT_FAILED fresh_sandbox_data) = true ∧
  can_destroy_run (set_status EXECUTE_STATUS INIT_FAILED fresh_sandbox_data) = false.
Proof.
  apply (gatekeeper_init_plan_failed (set_status EXECUTE_STATUS INIT_FAILED fresh_sandbox_data)).
  left. vm_compute. reflexivity.
Defined.

Example clean_csi :
  get_clean_string ("a" +:+ esc "[31;1mred" +:+ esc "[0m" +:+ esc "Mz") = "aredz".
Proof. vm_compute. reflexivity. Qed.

Example clean_plain : get_clean_string "Apply complete! [ok]" = "Apply complete! [ok]".
Proof. vm_compute. reflexivity. Qed.

(** ** The process runner *)

#[local] Arguments String.append : simpl never.
#[local] Arguments get_clean_string : simpl never.
#[local] Arguments proc_calls : simpl nomatch.
#[local] Arguments status_writes : simpl nomatch.

Ltac unfold_m :=
  unfold mbind, M_bind, mret, M_ret, bind, ret, raise, emit, lift_opt, lift_sum,
    try_except_reraise, write_sandbox, read_sandbox, sb_set_status,
    _set_service_status, _write_to_exec_log in *.

(** What one call of the runner does, by the way the process ended. *)
Lemma run_tf_proc_spec env self cmd command write_to_log w :
  let argv := tform_command env self cmd in
  let r := _run_tf_proc_with_command env self cmd command write_to_log w in
  sandbox r.2 = sandbox w ∧
  proc_calls (trace r.2) = proc_calls (trace w) ++ [argv] ∧
  status_writes (trace r.2) = status_writes (trace w) ∧
  r.1 = match run_process env argv (_tf_workingdir self) with
        | Exited 0 output => Returned output
        | res => Raised (runner_error res)
        end.
Proof.
  unfold _run_tf_proc_with_command, tform_command. unfold_m. simpl.
  destruct (run_process env _ _) as [[|p|p] out|[|p|p] umsg|msg];
    destruct write_to_log; destruct (py_in command ALLOWED_LOGGING_CMDS); simpl; done.
Qed.

(** The claim C4, as it is written, at a process whose captured output is
    not UTF-8: with exit code 0 the runner does not return the output, it
    raises a [TerraformExecutionError] without detail; with exit code 1 the
    error raised is the [UnicodeDecodeError] of the handler, not a
    [TerraformExecutionError]. *)
Lemma run_tf_proc_undecodable_output :
  let run returncode :=
    (_run_tf_proc_with_command
       (Faults.with_run_process Faults.healthy (Faults.terraform_undecodable returncode))
       Faults.staged_exec ["plan"] PLAN true Sample.fresh_world).1 in
  run 0%Z = Raised (TerraformExecutionError execution_error_message None) ∧
  run 1%Z = Raised (UnicodeDecodeError
              "'utf-8' codec can't decode byte 0xff in position 0: invalid start byte").
Proof. vm_compute. done. Qed.

(** C4 (amended). When the process exits with code 0 and its captured
    combined output decodes as UTF-8, the runner returns the decoded output;
    when it exits with another code and the output decodes, the runner raises
    a [TerraformExecutionError] whose detail is the sanitized output; when it
    exits with code 0 and the output does not decode, or the process cannot be
    run, the runner raises a [TerraformExecutionError] without detail. *)
Theorem run_tf_proc_exit_code env self cmd command write_to_log w :
  let res := run_process env (tform_command env self cmd) (_tf_workingdir self) in
  let outcome := (_run_tf_proc_with_command env self cmd command write_to_log w).1 in
  (∀ output, res = Exited 0 output → outcome = Returned output) ∧
  (∀ returncode output, returncode ≠ 0%Z → res = Exited returncode output →
     outcome = Raised (TerraformExecutionError execution_error_message
                         (Some (get_clean_string output)))) ∧
  (∀ message, res = ExitedUndecodable 0 message →
     outcome = Raised (TerraformExecutionError execution_error_message None)) ∧
  (∀ message, res = NotRun message →
     outcome = Raised (TerraformExecutionError execution_error_message None)).
Proof.
  intros res outcome. subst outcome.
  destruct (run_tf_proc_spec env self cmd command write_to_log w) as (_ & _ & _ & ->).
  fold res. repeat split.
  - by intros output ->.
  - intros returncode output Hne ->. by destruct returncode.
  - by intros message ->.
  - by intros message ->.
Qed.

Example sample_parent_chain :
  Sample.posix_parent Sample.staged_dir = "/tmp/tmp8k2/REPO" ∧
  Sample.posix_parent "/tmp/tmp8k2/REPO" = "/tmp/tmp8k2" ∧
  Sample.posix_parent "/tmp" = "/" ∧
  Sample.posix_parent "/" = "/" ∧
  Sample.posixpath_join "/srv/tf" "terraform.exe" = "/srv/tf/terraform.exe".
Proof. vm_compute. done. Qed.

Lemma run_tf_proc_exit_code_witness :
  (_run_tf_proc_with_command
     (Sample.env Sample.staged_fs 1 Sample.with_backend false ∅ ∅)
     (mkTfProcExec Sample.staged_dir)
     ["apply"; "--auto-approve"; "-no-color"; "planfile"] APPLY true
     Sample.fresh_world).1
  = Raised (TerraformExecutionError execution_error_message
              (Some "Error: creating resource")).
Proof.
  destruct (run_tf_proc_exit_code
              (Sample.env Sample.staged_fs 1 Sample.with_backend false ∅ ∅)
              (mkTfProcExec Sample.staged_dir)
              ["apply"; "--auto-approve"; "-no-color"; "planfile"] APPLY true
              Sample.fresh_world) as (_ & H & _).
  apply (H 1%Z (esc "[31m" +:+ "Error: creating resource" +:+ esc "[0m")).
  - lia.
  - vm_compute. reflexivity.
Defined.

(** ** The steps of the sequencer *)

Ltac use_runner_spec :=
  match goal with
  | |- context [_run_tf_proc_with_command ?e ?s ?c ?k ?b ?w0] =>
      let H := fresh "Hrun" in
      let Hsb := fresh "Hsb" in
      let Hpc := fresh "Hpc" in
      let Hsw := fresh "Hsw" in
      let Ho := fresh "Ho" in
      let o := fresh "o" in
      let w' := fresh "w'" in
      pose proof (run_tf_proc_spec e s c k b w0) as H;
      simpl in H;
      destruct (_run_tf_proc_with_command e s c k b w0) as [o w'];
      simpl in H; destruct H as (Hsb & Hpc & Hsw & Ho); subst o;
      match goal with
      | |- context [run_process ?e' ?a ?d] =>
          destruct (run_process e' a d) as [[|?|?] ?|[|?|?] ?|?]
      end;
      simpl; rewrite ?Hsb, ?Hpc, ?Hsw
  end.

Ltac step_spec := unfold_m; simpl; use_runner_spec; auto.

Lemma plan_terraform_spec env self w :
  let argv := tform_command env self (plan_cmd env) in
  let res := run_process env argv (_tf_workingdir self) in
  let r := plan_terraform env self w in
  proc_calls (trace r.2) = proc_calls (trace w) ++ [argv] ∧
  if exit_ok res
  then r.1 = Returned () ∧ sandbox r.2 = sandbox w ∧
       status_writes (trace r.2) = status_writes (trace w)
  else r.1 = Raised (runner_error res) ∧
       sandbox r.2 = set_status EXECUTE_STATUS PLAN_FAILED (sandbox w) ∧
       status_writes (trace r.2) = status_writes (trace w) ++ [(EXECUTE_STATUS, PLAN_FAILED)].
Proof. unfold plan_terraform, plan_cmd. step_spec. Qed.

Lemma apply_terraform_spec env self w :
  let argv := tform_command env self apply_cmd in
  let res := run_process env argv (_tf_workingdir self) in
  let r := apply_terraform env self w in
  proc_calls (trace r.2) = proc_calls (trace w) ++ [argv] ∧
  if exit_ok res
  then r.1 = Returned () ∧
       sandbox r.2 = set_status EXECUTE_STATUS APPLY_PASSED (sandbox w) ∧
       status_writes (trace r.2) = status_writes (trace w) ++ [(EXECUTE_STATUS, APPLY_PASSED)]
  else r.1 = Raised (runner_error res) ∧
       sandbox r.2 = set_status EXECUTE_STATUS APPLY_FAILED (sandbox w) ∧
       status_writes (trace r.2) = status_writes (trace w) ++ [(EXECUTE_STATUS, APPLY_FAILED)].
Proof. unfold apply_terraform, apply_cmd. step_spec. Qed.

Lemma destroy_terraform_spec env self w :
  let argv := tform_command env self (destroy_cmd env) in
  let res := run_process env argv (_tf_workingdir self) in
  let r := destroy_terraform env self w in
  proc_calls (trace r.2) = proc_calls (trace w) ++ [argv] ∧
  if exit_ok res
  then r.1 = Returned () ∧
       sandbox r.2 = set_status DESTROY_STATUS DESTROY_PASSED (sandbox w) ∧
       status_writes (trace r.2) = status_writes (trace w) ++ [(DESTROY_STATUS, DESTROY_PASSED)]
  else r.1 = Raised (runner_error res) ∧
       sandbox r.2 = set_status DESTROY_STATUS DESTROY_FAILED (sandbox w) ∧
       status_writes (trace r.2) = status_writes (trace w) ++ [(DESTROY_STATUS, DESTROY_FAILED)].
Proof. unfold destroy_terraform, destroy_cmd. step_spec. Qed.

Lemma init_backend_config_spec env w :
  _init_backend_config env w = (backend_config_answer env, w).
Proof.
  unfold _init_backend_config, backend_config_answer, backend_attribute_name.
  destruct (service_attributes env !! _) as [p|]; [|done].
  destruct (String.eqb p ""); simpl; [done|].
  unfold_m. destruct (generate_backend_cfg_file env p); [done|].
  destruct (get_backend_secret_vars env p); done.
Qed.

Lemma init_terraform_spec env self w :
  let r := init_terraform env self w in
  match backend_config_answer env with
  | Returned (PyDict secrets) =>
      let argv := tform_command env self (init_cmd secrets) in
      let res := run_process env argv (_tf_workingdir self) in
      proc_calls (trace r.2) = proc_calls (trace w) ++ [argv] ∧
      if exit_ok res
      then r.1 = Returned () ∧ sandbox r.2 = sandbox w ∧
           status_writes (trace r.2) = status_writes (trace w)
      else r.1 = Raised (runner_error res) ∧
           sandbox r.2 = set_status EXECUTE_STATUS INIT_FAILED (sandbox w) ∧
           status_writes (trace r.2)
             = status_writes (trace w) ++ [(EXECUTE_STATUS, INIT_FAILED)]
  | Returned v =>
      r.1 = Raised (match py_keys v with inl e => e | inr _ => AttributeError "" end) ∧
      proc_calls (trace r.2) = proc_calls (trace w) ∧ sandbox r.2 = sandbox w ∧
      status_writes (trace r.2) = status_writes (trace w)
  | Raised e =>
      r.1 = Raised e ∧
      proc_calls (trace r.2) = proc_calls (trace w) ∧ sandbox r.2 = sandbox w ∧
      status_writes (trace r.2) = status_writes (trace w)
  | Diverged => r.1 = Diverged ∧ proc_calls (trace r.2) = proc_calls (trace w)
  end.
Proof.
  intros r. assert (E : r = init_terraform env self w) by reflexivity. clearbody r.
  unfold init_terraform in E. unfold mbind, M_bind in E.
  unfold bind at 1 2 3 in E. unfold emit at 1 2 in E. simpl in E.
  rewrite init_backend_config_spec in E.
  destruct (backend_config_answer env) as [[| s |secrets]|e|]; simpl in E;
    try (subst r; simpl; done).
  subst r. unfold init_cmd. step_spec.
Qed.

Lemma save_terraform_outputs_spec env self w :
  let argv := tform_command env self output_cmd in
  let res := run_process env argv (_tf_workingdir self) in
  let r := save_terraform_outputs env self w in
  proc_calls (trace r.2) = proc_calls (trace w) ++ [argv] ∧
  sandbox r.2 = sandbox w ∧
  status_writes (trace r.2) = status_writes (trace w).
Proof.
  unfold save_terraform_outputs, output_cmd. unfold_m. simpl. use_runner_spec; auto.
  destruct (json_loads env _) as [e|j]; simpl; [by rewrite ?Hsb, ?Hpc, ?Hsw|].
  destruct (parse_and_save_outputs env j); simpl; by rewrite ?Hsb, ?Hpc, ?Hsw.
Qed.

Lemma tag_terraform_skipped env self w :
  get_apply_tag_attribute env = false →
  tag_terraform env self w =
  (Returned (),
   {| sandbox := sandbox w;
      trace := SandboxMessage "apply tags is false, skipping adding tags..."
               :: LogInfo "Skipping Adding Tags to Terraform Resources" :: trace w |}).
Proof. intros H. unfold tag_terraform. rewrite H. reflexivity. Qed.

(** ** The argument vectors *)

Lemma tform_command_shape env self sub flags :
  "-no-color" ∈ flags →
  argv_with_no_color env self sub (tform_command env self (sub :: flags)).
Proof. intros Hin. exists flags. by split. Qed.

(** The claim C3, as it is written, at the OUTPUT command of a sample sandbox:
    the argument vector is the executable, [output] and [-json], and has no
    [-no-color]. *)
Lemma output_argv_lacks_no_color :
  let env := Sample.env Sample.staged_fs 0 Sample.with_backend false ∅ ∅ in
  let self := mkTfProcExec Sample.staged_dir in
  let argv := ["/tmp/tmp8k2/REPO/hello/terraform.exe"; "output"; "-json"] in
  proc_calls (trace (save_terraform_outputs env self Sample.fresh_world).2) = [argv] ∧
  ¬ argv_with_no_color env self "output" argv.
Proof.
  split; [vm_compute; reflexivity|].
  intros (flags & Heq & Hin). injection Heq as <-.
  apply list_elem_of_singleton in Hin. discriminate Hin.
Qed.

(** C3 (amended). Every subprocess the INIT, PLAN, APPLY and DESTROY steps
    start has an argument vector that begins with
    [os.path.join(working_dir, 'terraform.exe')], continues with the
    subcommand, and has [-no-color] among the flags that follow; PLAN, APPLY
    and DESTROY start exactly one.  The OUTPUT step starts exactly one
    subprocess, with the vector [[executable; "output"; "-json"]] and no
    [-no-color]. *)
Theorem subprocess_argv_shape env self w :
  (∃ calls,
     proc_calls (trace (init_terraform env self w).2) = proc_calls (trace w) ++ calls ∧
     Forall (argv_with_no_color env self "init") calls) ∧
  (∃ argv,
     proc_calls (trace (plan_terraform env self w).2) = proc_calls (trace w) ++ [argv] ∧
     argv_with_no_color env self "plan" argv) ∧
  (∃ argv,
     proc_calls (trace (apply_terraform env self w).2) = proc_calls (trace w) ++ [argv] ∧
     argv_with_no_color env self "apply" argv) ∧
  (∃ argv,
     proc_calls (trace (destroy_terraform env self w).2) = proc_calls (trace w) ++ [argv] ∧
     argv_with_no_color env self "destroy" argv) ∧
  proc_calls (trace (save_terraform_outputs env self w).2)
    = proc_calls (trace w) ++
      [os_path_join env (_tf_workingdir self) "terraform.exe" :: "output" :: ["-json"]].
Proof.
  split; [|split; [|split; [|split]]].
  - pose proof (init_terraform_spec env self w) as H. simpl in H.
    destruct (backend_config_answer env) as [[| s |secrets]|e|].
    + exists []. rewrite app_nil_r. split; [apply H | constructor].
    + exists []. rewrite app_nil_r. split; [apply H | constructor].
    + eexists [_]. split; [apply H|]. constructor; [|constructor].
      apply tform_command_shape. rewrite elem_of_cons. by left.
    + exists []. rewrite app_nil_r. split; [apply H | constructor].
    + exists []. rewrite app_nil_r. split; [apply (proj2 H) | constructor].
  - eexists. split; [apply plan_terraform_spec|].
    apply tform_command_shape. rewrite !elem_of_cons. auto 10.
  - eexists. split; [apply apply_terraform_spec|].
    apply tform_command_shape. rewrite !elem_of_cons. auto 10.
  - eexists. split; [apply destroy_terraform_spec|].
    apply tform_command_shape. rewrite !elem_of_cons. auto 10.
  - apply save_terraform_outputs_spec.
Qed.

(** ** The backend configuration *)

(** C2 (the code at the configurations of the claim). When the remote state
    provider attribute is absent, [_init_backend_config] returns the string
    [""], and when it is blank it returns [None]: neither is a mapping.
    [init_terraform] then raises [AttributeError] at [.keys()], before the
    [try]: no subprocess is started and no status is written. *)
Theorem init_without_backend_raises env self w :
  service_attributes env !! backend_attribute_name env = None ∨
  service_attributes env !! backend_attribute_name env = Some "" →
  let r := init_terraform env self w in
  ((_init_backend_config env w).1 = Returned (PyStr "") ∨
   (_init_backend_config env w).1 = Returned PyNone) ∧
  (∃ msg, r.1 = Raised (AttributeError msg)) ∧
  proc_calls (trace r.2) = proc_calls (trace w) ∧
  status_writes (trace r.2) = status_writes (trace w) ∧
  sandbox r.2 = sandbox w.
Proof.
  intros Hattr r. subst r.
  pose proof (init_terraform_spec env self w) as H. simpl in H.
  rewrite init_backend_config_spec. simpl.
  assert (backend_config_answer env = Returned (PyStr "") ∨
          backend_config_answer env = Returned PyNone) as Hans.
  { unfold backend_config_answer. destruct Hattr as [-> | ->]; [by left | by right]. }
  split; [exact Hans|].
  destruct Hans as [Hans|Hans]; rewrite Hans in H; simpl in H;
    destruct H as (Ho & Hpc & Hsb & Hsw); eauto 10.
Qed.

Lemma init_without_backend_raises_witness :
  let env := Sample.env Sample.staged_fs 0 Sample.without_backend false ∅ ∅ in
  let self := mkTfProcExec Sample.staged_dir in
  (∃ msg, (init_terraform env self Sample.fresh_world).1 = Raised (AttributeError msg)) ∧
  proc_calls (trace (init_terraform env self Sample.fresh_world).2) = [].
Proof.
  intros env self.
  destruct (init_without_backend_raises env self Sample.fresh_world)
    as (_ & Hraise & Hpc & _).
  - left. vm_compute. reflexivity.
  - split; [exact Hraise | exact Hpc].
Defined.

Example init_absent_backend :
  let env := Sample.env Sample.staged_fs 0 Sample.without_backend false ∅ ∅ in
  (init_terraform env (mkTfProcExec Sample.staged_dir) Sample.fresh_world).1
  = Raised (AttributeError "'str' object has no attribute 'keys'").
Proof. vm_compute. reflexivity. Qed.

Example init_blank_backend :
  let env := Sample.env Sample.staged_fs 0 Sample.blank_backend false ∅ ∅ in
  (init_terraform env (mkTfProcExec Sample.staged_dir) Sample.fresh_world).1
  = Raised (AttributeError "'NoneType' object has no attribute 'keys'").
Proof. vm_compute. reflexivity. Qed.

Example init_with_backend :
  let env := Sample.env Sample.staged_fs 0 Sample.with_backend false ∅ ∅ in
  let r := init_terraform env (mkTfProcExec Sample.staged_dir) Sample.fresh_world in
  r.1 = Returned () ∧
  proc_calls (trace r.2) =
    [["/tmp/tmp8k2/REPO/hello/terraform.exe"; "init"; "-no-color";
      "-backend-config=access_key=s3cr3t"]].
Proof. vm_compute. done. Qed.

(** ** Tagging *)

Lemma dict_unpack2_lookup (a b : gmap string string) (k : string) :
  dict_unpack2 a b !! k = match b !! k with Some v => Some v | None => a !! k end.
Proof.
  unfold dict_unpack2. rewrite lookup_union.
  destruct (b !! k), (a !! k); reflexivity.
Qed.

Lemma dict_unpack2_dom (a b : gmap string string) :
  dom (dict_unpack2 a b) = dom a ∪ dom b.
Proof. unfold dict_unpack2. rewrite dom_union_L. apply (comm_L (∪)). Qed.

(** The claim C7, as it is written, at a sandbox whose "apply tags" attribute
    is false: the custom and default tags merge to 51 entries, and
    [tag_terraform] returns without an error. *)
Lemma tag_limit_not_checked_when_skipped :
  let env := Sample.env Sample.staged_fs 0 Sample.with_backend false
               (Sample.numbered_tags 51) ∅ in
  size (dict_unpack2 (get_variables_from_custom_tags_attribute env)
                     (get_default_tags env)) = 51 ∧
  (tag_terraform env (mkTfProcExec Sample.staged_dir) Sample.fresh_world).1 = Returned ().
Proof. vm_compute. done. Qed.

(** C7 (amended). The merged tag set has every key of the custom and of the
    default tags, with the value of the default tags on the keys both have.
    When the "apply tags" attribute is true, [tag_terraform] raises the
    [ValueError] of the tag limit when the merged set has more than 50
    entries, without calling the tagging package; with 50 entries or fewer it
    hands the merged set to the tagging package and ends as that call ends.
    When the attribute is false it returns at once, whatever the tags are. *)
Theorem tag_merge_and_limit env self w :
  let custom := get_variables_from_custom_tags_attribute env in
  let defaults := get_default_tags env in
  let tags := dict_unpack2 custom defaults in
  let r := tag_terraform env self w in
  (∀ k, tags !! k = match defaults !! k with Some v => Some v | None => custom !! k end) ∧
  dom tags = dom custom ∪ dom defaults ∧
  (get_apply_tag_attribute env = true → 50 < size tags →
     r.1 = Raised (ValueError (tag_limit_message (size tags))) ∧
     ∀ dir t i, TaggingStarted dir t i ∈ trace r.2 → TaggingStarted dir t i ∈ trace w) ∧
  (get_apply_tag_attribute env = true → size tags ≤ 50 →
     ∃ inputs,
       TaggingStarted (_tf_workingdir self) tags inputs ∈ trace r.2 ∧
       r.1 = match start_tagging_terraform_resources env (_tf_workingdir self) tags inputs with
             | Some e => Raised e
             | None => Returned ()
             end) ∧
  (get_apply_tag_attribute env = false → r.1 = Returned () ∧ sandbox r.2 = sandbox w).
Proof.
  intros custom defaults tags r.
  split; [intros k; apply dict_unpack2_lookup|].
  split; [apply dict_unpack2_dom|].
  subst r. unfold tag_terraform. fold custom defaults. fold tags.
  split; [|split].
  - intros -> Hbig. simpl. rewrite bool_decide_eq_true_2 by exact Hbig.
    unfold_m. simpl. split; [done|].
    intros dir t i Hin. rewrite !elem_of_cons in Hin.
    destruct Hin as [Hin|[Hin|Hin]]; [discriminate Hin | discriminate Hin | exact Hin].
  - intros -> Hsmall. simpl. rewrite bool_decide_eq_false_2 by lia.
    eexists. unfold_m. simpl. split.
    + destruct (start_tagging_terraform_resources env _ _ _); simpl;
        rewrite !elem_of_cons; auto.
    + destruct (start_tagging_terraform_resources env _ _ _); reflexivity.
  - intros ->. simpl. done.
Qed.

Lemma tag_merge_and_limit_witness :
  let env51 := Sample.env Sample.staged_fs 0 Sample.with_backend true
                 (Sample.numbered_tags 50) {[ "owner" := "admin" ]} in
  let env3 := Sample.env Sample.staged_fs 0 Sample.with_backend true
                 {[ "a" := "1"; "b" := "2" ]} {[ "b" := "9"; "c" := "3" ]} in
  let self := mkTfProcExec Sample.staged_dir in
  (tag_terraform env51 self Sample.fresh_world).1
    = Raised (ValueError "AWS and Azure have a limit of 50 tags per resource, you have 51") ∧
  (tag_terraform env3 self Sample.fresh_world).1 = Returned () ∧
  dict_unpack2 {[ "a" := "1"; "b" := "2" ]} {[ "b" := "9"; "c" := "3" ]} !! "b" = Some "9".
Proof.
  intros env51 env3 self.
  destruct (tag_merge_and_limit env51 self Sample.fresh_world) as (_ & _ & H51 & _).
  destruct (tag_merge_and_limit env3 self Sample.fresh_world) as (Hk & _ & _ & H3 & _).
  split; [|split].
  - apply H51; [reflexivity | vm_compute; lia].
  - destruct H3 as (inputs & _ & ->); [reflexivity | vm_compute; lia | reflexivity].
  - apply (Hk "b").
Defined.

(** ** The output sanitizer *)

#[local] Arguments match_len : simpl never.

Lemma star_run_shorter cls s k rest :
  (∀ s' r', k s' = Some r' → String.length r' ≤ String.length s') →
  star_run cls s k = Some rest → String.length rest ≤ String.length s.
Proof.
  intros Hk. induction s as [|c t IH]; simpl.
  - apply Hk.
  - destruct (in_class cls c); [|apply Hk].
    destruct (star_run cls t k) as [r|] eqn:E.
    + intros [= <-]. specialize (IH eq_refl). lia.
    + apply Hk.
Qed.

Lemma re_match_shorter r : ∀ s k rest,
  (∀ s' r', k s' = Some r' → String.length r' ≤ String.length s') →
  re_match r s k = Some rest → String.length rest ≤ String.length s.
Proof.
  induction r as [cls|cls|r1 IH1 r2 IH2|r1 IH1 r2 IH2]; intros s k rest Hk; simpl.
  - destruct s as [|c t]; [done|]. destruct (in_class cls c); [|done].
    intros H%Hk. simpl. lia.
  - by apply star_run_shorter.
  - apply IH1. intros s' r'. by apply IH2.
  - destruct (re_match r1 s k) as [x|] eqn:E.
    + intros [= <-]. by eapply IH1.
    + by apply IH2.
Qed.

Lemma in_class_esc c : in_class [(code ESC, code ESC)] c = true → c = ESC.
Proof.
  unfold in_class, code.
  change (N_of_ascii ESC) with 27%N. cbn [existsb fst snd].
  rewrite orb_false_r, andb_true_iff, !N.leb_le. intros [H1 H2].
  assert (N_of_ascii c = N_of_ascii ESC) as E
    by (change (N_of_ascii ESC) with 27%N; lia).
  rewrite <- (ascii_N_embedding c), E. reflexivity.
Qed.

Lemma re_match_class_first cls r c t k :
  re_match (Cat (Class cls) r) (String c t) k
  = if in_class cls c then re_match r t k else None.
Proof. reflexivity. Qed.

(** A match of [DIRTY_CHARS] begins with ESC and is not empty. *)
Lemma match_len_dirty s n :
  match_len DIRTY_CHARS s = Some n → (∃ t, s = String ESC t) ∧ 1 ≤ n.
Proof.
  unfold match_len, DIRTY_CHARS.
  destruct s as [|c t]; [done|].
  rewrite re_match_class_first.
  destruct (in_class [(code ESC, code ESC)] c) eqn:Hc; [|done].
  apply in_class_esc in Hc as ->.
  match goal with |- context [re_match ?r t ?k] => destruct (re_match r t k) as [rest|] eqn:E end;
    [|done].
  apply re_match_shorter in E; [|intros ? ? [= <-]; done].
  intros [= <-]. split; [by eexists|]. simpl. lia.
Qed.

Lemma clean_without_escape s : has_escape s = false → get_clean_string s = s.
Proof.
  intros H. unfold get_clean_string.
  destruct (String.length s); simpl; [reflexivity | by rewrite H].
Qed.

Lemma sub_from_length r s : ∀ skip,
  String.length (sub_from r skip s) ≤ String.length s.
Proof.
  induction s as [|c t IH]; intros skip; [done|]. simpl.
  destruct skip as [|n]; [|specialize (IH n); lia].
  destruct (match_len r (String c t)) as [[|n]|]; simpl;
    [specialize (IH 0) | specialize (IH n) | specialize (IH 0)]; lia.
Qed.

(** A pass over a text that contains an escape sequence removes something. *)
Lemma clean_once_shorter s :
  has_escape s = true → String.length (clean_once s) < String.length s.
Proof.
  unfold clean_once, re_sub_empty.
  induction s as [|c t IH]; [done|]. simpl.
  destruct (match_len DIRTY_CHARS (String c t)) as [[|n]|] eqn:E.
  - apply match_len_dirty in E as [_ E]. lia.
  - intros _. pose proof (sub_from_length DIRTY_CHARS t n). lia.
  - rewrite bool_decide_eq_false_2 by (by intros [n Hn]).
    simpl. intros H. specialize (IH H). lia.
Qed.

Lemma clean_passes_no_escape fuel : ∀ s,
  String.length s ≤ fuel → has_escape (clean_passes fuel s) = false.
Proof.
  induction fuel as [|fuel IH]; intros s Hlen.
  - destruct s; [reflexivity | simpl in Hlen; lia].
  - simpl. destruct (has_escape s) eqn:E; [|exact E].
    apply IH. pose proof (clean_once_shorter s E). lia.
Qed.

(** C8. The sanitizer is idempotent: for every text [x], [clean (clean x)]
    is [clean x], the cleaned text containing no escape sequence; and a text
    that contains no escape sequence is returned unchanged. *)
Theorem clean_idempotent (x : string) :
  get_clean_string (get_clean_string x) = get_clean_string x ∧
  has_escape (get_clean_string x) = false ∧
  (has_escape x = false → get_clean_string x = x).
Proof.
  assert (has_escape (get_clean_string x) = false) as H
    by (apply clean_passes_no_escape; reflexivity).
  split; [by apply clean_without_escape|]. split; [exact H|].
  apply clean_without_escape.
Qed.

Lemma clean_idempotent_witness :
  get_clean_string "Apply complete! [ok]" = "Apply complete! [ok]" ∧
  get_clean_string (get_clean_string (esc (esc "[31m" +:+ "[0m" +:+ "red")))
    = get_clean_string (esc (esc "[31m" +:+ "[0m" +:+ "red")).
Proof.
  split.
  - apply (clean_idempotent "Apply complete! [ok]"). vm_compute. reflexivity.
  - apply (clean_idempotent (esc (esc "[31m" +:+ "[0m" +:+ "red"))).
Defined.

Example clean_nested_escape :
  clean_once (esc (esc "[31m" +:+ "[0m" +:+ "red")) = esc "[0m" +:+ "red" ∧
  get_clean_string (esc (esc "[31m" +:+ "[0m" +:+ "red")) = "red".
Proof. vm_compute. done. Qed.

(** ** Removing the local staging directory *)

Lemma staging_listing_exact l :
  staging_listing l = true → l = ["REPO"; "repo.zip"] ∨ l = ["repo.zip"; "REPO"].
Proof.
  unfold staging_listing, py_in.
  rewrite !andb_true_iff, !bool_decide_eq_true, Nat.eqb_eq.
  intros (Hlen & Hrepo & Hzip).
  destruct l as [|a [|b [|c l]]]; try discriminate Hlen.
  rewrite !elem_of_cons in Hrepo, Hzip.
  destruct Hrepo as [Hr|[Hr|Hr]], Hzip as [Hz|[Hz|Hz]];
    try (by inversion Hr); try (by inversion Hz); subst; try discriminate; auto.
Qed.

Lemma find_tmp_folder_step env fuel tf_path l :
  os_listdir env (path_parent_absolute env tf_path) = inr l →
  find_tmp_folder env (S fuel) tf_path =
  if staging_listing l then Returned (path_parent_absolute env tf_path)
  else find_tmp_folder env fuel (path_parent_absolute env tf_path).
Proof. intros H. simpl. rewrite H. reflexivity. Qed.

(** The walk ends at the nearest ancestor whose listing passes the test. *)
Lemma find_tmp_folder_found env n : ∀ dir fuel l,
  n < fuel →
  (∀ i, i < n → ∃ li, os_listdir env (ancestor env (S i) dir) = inr li ∧
                      staging_listing li = false) →
  os_listdir env (ancestor env (S n) dir) = inr l →
  staging_listing l = true →
  find_tmp_folder env fuel dir = Returned (ancestor env (S n) dir).
Proof.
  induction n as [|n IH]; intros dir fuel l Hfuel Hnear Hl Hst;
    (destruct fuel as [|fuel]; [lia|]).
  - simpl in Hl. rewrite (find_tmp_folder_step _ _ _ _ Hl), Hst. reflexivity.
  - destruct (Hnear 0) as (l0 & Hl0 & Hst0); [lia|]. simpl in Hl0.
    rewrite (find_tmp_folder_step _ _ _ _ Hl0), Hst0.
    apply (IH (path_parent_absolute env dir) fuel l); [lia| |exact Hl|exact Hst].
    intros i Hi. apply (Hnear (S i)). lia.
Qed.

(** Without such an ancestor the walk is still going on after any number of
    iterations. *)
Lemma find_tmp_folder_diverges env fuel : ∀ dir,
  (∀ i, ∃ li, os_listdir env (ancestor env (S i) dir) = inr li ∧
              staging_listing li = false) →
  find_tmp_folder env fuel dir = Diverged.
Proof.
  induction fuel as [|fuel IH]; intros dir Hall; [reflexivity|].
  destruct (Hall 0) as (l0 & Hl0 & Hst0). simpl in Hl0.
  rewrite (find_tmp_folder_step _ _ _ _ Hl0), Hst0.
  apply IH. intros i. apply (Hall (S i)).
Qed.

Lemma delete_local_temp_dir_frame env fuel dir w :
  let r := _delete_local_temp_dir env fuel dir w in
  sb_status (sandbox r.2) = sb_status (sandbox w) ∧
  status_writes (trace r.2) = status_writes (trace w) ∧
  proc_calls (trace r.2) = proc_calls (trace w).
Proof.
  unfold _delete_local_temp_dir. unfold_m. simpl.
  destruct (find_tmp_folder env fuel dir) as [p|e|]; simpl; [|done|done].
  destruct (shutil_rmtree env p); simpl; done.
Qed.

Lemma sample_root_is_its_own_ancestor n : ancestor
  (Sample.env Sample.plain_fs 0 Sample.with_backend false ∅ ∅) n "/" = "/".
Proof. induction n as [|n IH]; [reflexivity|]. simpl. exact IH. Qed.

(** The claim C9, as it is written, at the working directory [/srv/tf] of a
    host whose root holds only [srv]: no ancestor lists exactly REPO and
    repo.zip, and no amount of iterations ends the walk; nothing is removed
    and the stored path is not cleared. *)
Lemma cleanup_walk_never_ends :
  let env := Sample.env Sample.plain_fs 0 Sample.with_backend false ∅ ∅ in
  let w := Sample.staged_world Sample.plain_dir in
  ¬ ∃ fuel, _delete_local_temp_dir env fuel Sample.plain_dir w ≠ (Diverged, w).
Proof.
  intros env w [fuel Hne]. apply Hne. clear Hne.
  unfold _delete_local_temp_dir. unfold_m.
  rewrite find_tmp_folder_diverges; [reflexivity|].
  intros [|[|i]].
  - exists ["tf"]. split; reflexivity.
  - exists ["srv"]. split; reflexivity.
  - exists ["srv"]. change (ancestor env (S (S (S i))) Sample.plain_dir)
      with (ancestor env (S i) "/").
    subst env. rewrite (sample_root_is_its_own_ancestor (S i)). split; reflexivity.
Qed.

(** C9 (amended). When some proper ancestor of the working directory lists
    exactly two entries, REPO and repo.zip, and the nearer ancestors can be
    listed, the walk ends at the nearest such ancestor; that ancestor is then
    removed with [shutil.rmtree] and, when the removal returns, the stored
    path of the working directory is set to the empty string.  When every
    ancestor can be listed and none is such a directory, the walk does not
    end. *)
Theorem cleanup_walk env dir w :
  (∀ n l fuel,
     n < fuel →
     (∀ i, i < n → ∃ li, os_listdir env (ancestor env (S i) dir) = inr li ∧
                         staging_listing li = false) →
     os_listdir env (ancestor env (S n) dir) = inr l →
     staging_listing l = true →
     let root := ancestor env (S n) dir in
     (l = ["REPO"; "repo.zip"] ∨ l = ["repo.zip"; "REPO"]) ∧
     find_tmp_folder env fuel dir = Returned root ∧
     (shutil_rmtree env root = None →
        _delete_local_temp_dir env fuel dir w =
        (Returned (),
         {| sandbox := set_tf_working_dir "" (sandbox w);
            trace := WorkingDirWritten "" :: TreeRemoved root :: trace w |}))) ∧
  ((∀ i, ∃ li, os_listdir env (ancestor env (S i) dir) = inr li ∧
               staging_listing li = false) →
   ∀ fuel, _delete_local_temp_dir env fuel dir w = (Diverged, w)).
Proof.
  split.
  - intros n l fuel Hfuel Hnear Hl Hst root.
    pose proof (find_tmp_folder_found env n dir fuel l Hfuel Hnear Hl Hst) as Hfind.
    split; [by apply staging_listing_exact|]. split; [exact Hfind|].
    intros Hrm. unfold _delete_local_temp_dir. unfold_m. rewrite Hfind.
    fold root. rewrite Hrm. reflexivity.
  - intros Hall fuel. unfold _delete_local_temp_dir. unfold_m.
    rewrite find_tmp_folder_diverges; [reflexivity | exact Hall].
Qed.

Lemma cleanup_walk_witness :
  let env := Sample.env Sample.staged_fs 0 Sample.with_backend false ∅ ∅ in
  let w := Sample.staged_world Sample.staged_dir in
  _delete_local_temp_dir env 5 Sample.staged_dir w =
  (Returned (),
   {| sandbox := set_tf_working_dir "" (sandbox w);
      trace := [WorkingDirWritten ""; TreeRemoved "/tmp/tmp8k2"] |}).
Proof.
  intros env w.
  refine (proj2 (proj2 (proj1 (cleanup_walk env Sample.staged_dir w)
                          1 ["REPO"; "repo.zip"] 5 _ _ _ _)) _).
  - lia.
  - intros i Hi. assert (i = 0) as -> by lia. exists ["hello"]. split; reflexivity.
  - reflexivity.
  - reflexivity.
  - reflexivity.
Defined.

(** ** The execute workflow *)

Lemma get_status_sb_status sb sb' k :
  sb_status sb' = sb_status sb → get_status sb' k = get_status sb k.
Proof. unfold get_status. by intros ->. Qed.

Lemma can_execute_run_sb_status sb sb' :
  sb_status sb' = sb_status sb → can_execute_run sb' = can_execute_run sb.
Proof.
  intros H. unfold can_execute_run. by rewrite !(get_status_sb_status sb sb' _ H).
Qed.

Lemma prepare_tf_working_dir_frame env w :
  let r := _prepare_tf_working_dir env w in
  sb_status (sandbox r.2) = sb_status (sandbox w) ∧
  status_writes (trace r.2) = status_writes (trace w) ∧
  proc_calls (trace r.2) = proc_calls (trace w).
Proof.
  unfold _prepare_tf_working_dir. unfold_m. simpl.
  destruct (negb (_does_working_dir_exists env _)); simpl; [|done].
  destruct (download_terraform_module env) as [e|dir]; simpl; [done|].
  destruct (download_terraform_executable env dir); simpl; done.
Qed.

(** The execute workflow once the working directory is prepared, the gate is
    open and the provider is initialized: INIT, and then the call of
    [tag_terraform] on the executor the shell built. *)
Lemma execute_terraform_unfold env fuel w0 dir w1 :
  _prepare_tf_working_dir env w0 = (Returned dir, w1) →
  can_execute_run (sandbox w1) = true →
  initialize_provider env = None →
  execute_terraform env fuel w0 =
  match init_terraform env (TfProcExec_init (sandbox w1))
          {| sandbox := sandbox w1; trace := ProviderInitialized :: trace w1 |} with
  | (Returned _, w2) => (Raised tag_attribute_error, w2)
  | (Raised e, w2) => (Raised e, w2)
  | (Diverged, w2) => (Diverged, w2)
  end.
Proof.
  intros Hprep Hgate Hprov. unfold execute_terraform, _create_tf_proc_executer.
  unfold mbind at 1, M_bind at 1, bind at 1. rewrite Hprep.
  unfold_m. simpl. rewrite Hgate, Hprov. simpl.
  destruct (init_terraform env _ _) as [[[]|e|] w2]; reflexivity.
Qed.

Lemma init_terraform_returned env self w w' :
  init_terraform env self w = (Returned (), w') →
  sandbox w' = sandbox w ∧ status_writes (trace w') = status_writes (trace w).
Proof.
  intros H. pose proof (init_terraform_spec env self w) as Hs. cbv zeta in Hs.
  rewrite H in Hs. cbn [fst snd] in Hs.
  destruct (backend_config_answer env) as [[| s |secrets]|e|];
    try (destruct Hs as (Hs & _); discriminate Hs).
  destruct Hs as (_ & Hs). destruct (exit_ok _); [tauto|].
  destruct Hs as (Hs & _). discriminate Hs.
Qed.


Lemma init_terraform_returned_calls env self w w' :
  init_terraform env self w = (Returned (), w') →
  ∃ argv, proc_calls (trace w') = proc_calls (trace w) ++ [argv] ∧
          argv !! 1 = Some "init".
Proof.
  intros H. pose proof (init_terraform_spec env self w) as Hs. cbv zeta in Hs.
  rewrite H in Hs. cbn [fst snd] in Hs.
  destruct (backend_config_answer env) as [[| s |secrets]|e|];
    try (destruct Hs as (Hs & _); discriminate Hs).
  destruct Hs as (Hs & _). eexists. split; [exact Hs|]. reflexivity.
Qed.

(** C5 (the code at the runs of the claim). In every run of the execute
    workflow in which INIT succeeds, whatever the later processes would do
    (the APPLY process exiting with a code other than 0 included), the
    workflow ends at TAG: the executor the shell built has the backend
    handler as its [_input_output_service], and [tag_terraform] raises
    [AttributeError] at [get_apply_tag_attribute].  The error raised is not a
    [TerraformExecutionError]; the execution status is the one stored before
    the run, which is not APPLY_FAILED; and INIT's is the only subprocess:
    PLAN and APPLY are never started. *)
Theorem execute_stops_at_tag env fuel w0 dir w1 w2 :
  let self := TfProcExec_init (sandbox w1) in
  _prepare_tf_working_dir env w0 = (Returned dir, w1) →
  can_execute_run (sandbox w1) = true →
  initialize_provider env = None →
  init_terraform env self (emit ProviderInitialized w1).2 = (Returned (), w2) →
  let r := execute_terraform env fuel w0 in
  r = (Raised (AttributeError
                 "'BackendHandler' object has no attribute 'get_apply_tag_attribute'"),
       w2) ∧
  get_status (sandbox r.2) EXECUTE_STATUS = get_status (sandbox w0) EXECUTE_STATUS ∧
  get_status (sandbox r.2) EXECUTE_STATUS ≠ APPLY_FAILED ∧
  ∃ argv, proc_calls (trace r.2) = proc_calls (trace w0) ++ [argv] ∧
          argv !! 1 = Some "init".
Proof.
  intros self Hprep Hgate Hprov Hinit r.
  change ((emit ProviderInitialized w1).2)
    with {| sandbox := sandbox w1; trace := ProviderInitialized :: trace w1 |} in Hinit.
  assert (r = (Raised tag_attribute_error, w2)) as ->.
  { subst r. rewrite (execute_terraform_unfold env fuel w0 dir w1 Hprep Hgate Hprov).
    fold self. by rewrite Hinit. }
  split; [reflexivity|]. cbn [snd].
  pose proof (prepare_tf_working_dir_frame env w0) as (Hsb1 & _ & Hpc1).
  rewrite Hprep in Hsb1, Hpc1. cbn [snd] in Hsb1, Hpc1.
  destruct (init_terraform_returned env self _ w2 Hinit) as (Hsb2 & _).
  destruct (init_terraform_returned_calls env self _ w2 Hinit) as (argv & Hpc2 & Hargv).
  cbn [sandbox trace] in *. simpl proc_calls in Hpc2.
  assert (get_status (sandbox w2) EXECUTE_STATUS = get_status (sandbox w0) EXECUTE_STATUS)
    as He by (rewrite Hsb2; by apply get_status_sb_status).
  split; [exact He|]. split.
  - rewrite Hsb2. intros E.
    assert (can_execute_run (sandbox w1) = false) as Hno
      by (apply can_execute_run_false_iff; by left).
    congruence.
  - exists argv. split; [by rewrite Hpc2, Hpc1 | exact Hargv].
Qed.

Lemma execute_stops_at_tag_witness :
  let env := Sample.env Sample.staged_fs 1 Sample.with_backend false ∅ ∅ in
  let r := execute_terraform env 5 Sample.fresh_world in
  r.1 = Raised (AttributeError
                  "'BackendHandler' object has no attribute 'get_apply_tag_attribute'") ∧
  get_status (sandbox r.2) EXECUTE_STATUS = NONE.
Proof.
  intros env r.
  pose (w1 := (_prepare_tf_working_dir env Sample.fresh_world).2).
  pose (self := TfProcExec_init (sandbox w1)).
  pose (w2 := (init_terraform env self (emit ProviderInitialized w1).2).2).
  destruct (execute_stops_at_tag env 5 Sample.fresh_world Sample.staged_dir w1 w2)
    as (Hr & Hstatus & _).
  - vm_compute. reflexivity.
  - vm_compute. reflexivity.
  - reflexivity.
  - vm_compute. reflexivity.
  - fold r in Hr, Hstatus. split; [by rewrite Hr | exact Hstatus].
Defined.

Lemma using_remote_state_raises env w :
  _using_remote_state env w =
  (Raised (AttributeError
             "type object 'ATTRIBUTE_NAMES' has no attribute 'REMOTE_STATE_PROVIDER'"), w).
Proof. reflexivity. Qed.

(** C6 (the code at the runs of the claim). In every run of the execute
    workflow that starts from the statuses NONE/NONE and in which INIT
    succeeds, the workflow ends at TAG with the [AttributeError] of the
    backend handler bound as [_input_output_service]: PLAN, APPLY and OUTPUT
    do not run, no status is written, and the stored execution status ends as
    NONE, not APPLY_PASSED; the destroy status is NONE as before.  The test
    that follows OUTPUT, [_using_remote_state], raises [AttributeError] too:
    constants.py gives [ATTRIBUTE_NAMES] no [REMOTE_STATE_PROVIDER]. *)
Theorem execute_from_none_stops_at_tag env fuel w0 dir w1 w2 :
  let self := TfProcExec_init (sandbox w1) in
  get_status (sandbox w0) EXECUTE_STATUS = NONE →
  get_status (sandbox w0) DESTROY_STATUS = NONE →
  _prepare_tf_working_dir env w0 = (Returned dir, w1) →
  initialize_provider env = None →
  init_terraform env self (emit ProviderInitialized w1).2 = (Returned (), w2) →
  let r := execute_terraform env fuel w0 in
  r.1 = Raised (AttributeError
                  "'BackendHandler' object has no attribute 'get_apply_tag_attribute'") ∧
  get_status (sandbox r.2) EXECUTE_STATUS = NONE ∧
  get_status (sandbox r.2) EXECUTE_STATUS ≠ APPLY_PASSED ∧
  get_status (sandbox r.2) DESTROY_STATUS = NONE ∧
  status_writes (trace r.2) = status_writes (trace w0) ∧
  ∀ w, (_using_remote_state env w).1 =
       Raised (AttributeError
                 "type object 'ATTRIBUTE_NAMES' has no attribute 'REMOTE_STATE_PROVIDER'").
Proof.
  intros self He Hd Hprep Hprov Hinit r.
  change ((emit ProviderInitialized w1).2)
    with {| sandbox := sandbox w1; trace := ProviderInitialized :: trace w1 |} in Hinit.
  pose proof (prepare_tf_working_dir_frame env w0) as (Hsb1 & Hsw1 & _).
  rewrite Hprep in Hsb1, Hsw1. cbn [snd] in Hsb1, Hsw1.
  assert (can_execute_run (sandbox w1) = true) as Hgate.
  { rewrite (can_execute_run_sb_status _ _ Hsb1).
    apply not_false_iff_true. intros E. apply can_execute_run_false_iff in E.
    rewrite He in E. destruct E as [E|[_ E]]; discriminate E. }
  assert (r = (Raised tag_attribute_error, w2)) as ->.
  { subst r. rewrite (execute_terraform_unfold env fuel w0 dir w1 Hprep Hgate Hprov).
    fold self. by rewrite Hinit. }
  destruct (init_terraform_returned env self _ w2 Hinit) as (Hsb2 & Hsw2).
  cbn [fst snd sandbox trace] in *. simpl status_writes in Hsw2.
  assert (get_status (sandbox w2) EXECUTE_STATUS = NONE) as He2
    by (rewrite Hsb2, (get_status_sb_status _ _ _ Hsb1); exact He).
  split; [reflexivity|]. split; [exact He2|].
  split; [rewrite He2; discriminate|].
  split; [rewrite Hsb2, (get_status_sb_status _ _ _ Hsb1); exact Hd|].
  split; [by rewrite Hsw2, Hsw1|].
  intros w. by rewrite using_remote_state_raises.
Qed.

Lemma execute_from_none_stops_at_tag_witness :
  let env := Sample.env Sample.staged_fs 0 Sample.with_backend false ∅ ∅ in
  let r := execute_terraform env 5 Sample.fresh_world in
  r.1 = Raised (AttributeError
                  "'BackendHandler' object has no attribute 'get_apply_tag_attribute'") ∧
  get_status (sandbox r.2) EXECUTE_STATUS = NONE ∧
  status_writes (trace r.2) = [].
Proof.
  intros env r.
  pose (w1 := (_prepare_tf_working_dir env Sample.fresh_world).2).
  pose (self := TfProcExec_init (sandbox w1)).
  pose (w2 := (init_terraform env self (emit ProviderInitialized w1).2).2).
  destruct (execute_from_none_stops_at_tag env 5 Sample.fresh_world Sample.staged_dir
              w1 w2) as (H1 & H2 & _ & _ & H3 & _).
  - reflexivity.
  - reflexivity.
  - vm_compute. reflexivity.
  - reflexivity.
  - vm_compute. reflexivity.
  - split; [exact H1|]. split; [exact H2 | exact H3].
Defined.

Example execute_sample_run :
  let env := Sample.env Sample.staged_fs 0 Sample.with_backend false ∅ ∅ in
  let r := execute_terraform env 5 Sample.fresh_world in
  proc_calls (trace r.2) =
    [ ["/tmp/tmp8k2/REPO/hello/terraform.exe"; "init"; "-no-color";
       "-backend-config=access_key=s3cr3t"] ] ∧
  live_status (trace r.2) = Some ("Progress 30", "Init Passed") ∧
  get_tf_working_dir (sandbox r.2) = Sample.staged_dir.
Proof. vm_compute. done. Qed.

(** * Further properties of the modelled code *)

(** ** The steps and the gatekeeper *)

Lemma gate_after_execute_status sb v :
  get_status sb EXECUTE_STATUS = v →
  can_destroy_run sb = bool_decide (v = APPLY_PASSED ∨ v = APPLY_FAILED) ∧
  can_execute_run sb =
    negb (bool_decide (v = APPLY_FAILED)
          || bool_decide (get_status sb DESTROY_STATUS = DESTROY_FAILED ∧ v = APPLY_PASSED)).
Proof.
  intros Hv. split.
  - apply eq_true_iff_eq. rewrite bool_decide_eq_true.
    rewrite can_destroy_run_true_iff, Hv. done.
  - apply eq_true_iff_eq. rewrite negb_true_iff, orb_false_iff.
    rewrite !bool_decide_eq_false. rewrite <- not_false_iff_true.
    rewrite can_execute_run_false_iff, Hv. tauto.
Qed.

Lemma gate_closed_for_destroy sb v :
  get_status sb EXECUTE_STATUS = v → v ≠ APPLY_PASSED → v ≠ APPLY_FAILED →
  can_execute_run sb = true ∧ can_destroy_run sb = false.
Proof.
  intros Hv H1 H2. split.
  - apply not_false_iff_true. intros E. apply can_execute_run_false_iff in E.
    rewrite Hv in E. tauto.
  - apply not_true_iff_false. intros E. apply can_destroy_run_true_iff in E.
    rewrite Hv in E. tauto.
Qed.


(** X2. When the plan process does not exit with 0, [plan_terraform] stores
    PLAN_FAILED over whatever execution status was there, APPLY_PASSED
    included: afterwards a new execute run is allowed and destroy is
    blocked. *)
Theorem failed_plan_then_gate env self w :
  exit_ok (run_process env (tform_command env self (plan_cmd env)) (_tf_workingdir self))
    = false →
  let sb' := sandbox (plan_terraform env self w).2 in
  get_status sb' EXECUTE_STATUS = PLAN_FAILED ∧
  get_status sb' DESTROY_STATUS = get_status (sandbox w) DESTROY_STATUS ∧
  can_execute_run sb' = true ∧ can_destroy_run sb' = false.
Proof.
  intros Hfail sb'. subst sb'.
  pose proof (plan_terraform_spec env self w) as (_ & H). cbv zeta in H.
  rewrite Hfail in H. destruct H as (_ & -> & _).
  split; [apply get_set_status_eq|]. split; [by apply get_set_status_ne|].
  apply (gate_closed_for_destroy _ PLAN_FAILED); [apply get_set_status_eq|done|done].
Qed.

Lemma failed_plan_then_gate_witness :
  let sb' := sandbox (plan_terraform (Faults.failing_at "plan") Faults.staged_exec
                        (Faults.world_with APPLY_PASSED DESTROY_PASSED)).2 in
  get_status sb' EXECUTE_STATUS = PLAN_FAILED ∧ can_destroy_run sb' = false.
Proof.
  intros sb'.
  destruct (failed_plan_then_gate (Faults.failing_at "plan") Faults.staged_exec
              (Faults.world_with APPLY_PASSED DESTROY_PASSED)) as (H1 & _ & _ & H2).
  - vm_compute. reflexivity.
  - split; [exact H1 | exact H2].
Defined.

(** X3. [init_terraform] with a backend configuration: when the init process
    does not exit with 0, INIT_FAILED is stored over whatever execution status
    was there; afterwards a new execute run is allowed and destroy is
    blocked. *)
Theorem failed_init_then_gate env self w secrets :
  backend_config_answer env = Returned (PyDict secrets) →
  exit_ok (run_process env (tform_command env self (init_cmd secrets))
             (_tf_workingdir self)) = false →
  let sb' := sandbox (init_terraform env self w).2 in
  get_status sb' EXECUTE_STATUS = INIT_FAILED ∧
  get_status sb' DESTROY_STATUS = get_status (sandbox w) DESTROY_STATUS ∧
  can_execute_run sb' = true ∧ can_destroy_run sb' = false.
Proof.
  intros Hb Hfail sb'. subst sb'.
  pose proof (init_terraform_spec env self w) as H. cbv zeta in H.
  rewrite Hb, Hfail in H. destruct H as (_ & _ & -> & _).
  split; [apply get_set_status_eq|]. split; [by apply get_set_status_ne|].
  apply (gate_closed_for_destroy _ INIT_FAILED); [apply get_set_status_eq|done|done].
Qed.

Lemma failed_init_then_gate_witness :
  let sb' := sandbox (init_terraform (Faults.failing_at "init") Faults.staged_exec
                        (Faults.world_with APPLY_PASSED NONE)).2 in
  get_status sb' EXECUTE_STATUS = INIT_FAILED ∧ can_destroy_run sb' = false.
Proof.
  intros sb'.
  destruct (failed_init_then_gate (Faults.failing_at "init") Faults.staged_exec
              (Faults.world_with APPLY_PASSED NONE) [("access_key", "s3cr3t")])
    as (H1 & _ & _ & H2).
  - vm_compute. reflexivity.
  - vm_compute. reflexivity.
  - split; [exact H1 | exact H2].
Defined.

(** X4. When the backend handler raises while [init_terraform] builds the
    backend configuration, the exception leaves [init_terraform] as it is:
    the failure happens before the [try], so INIT_FAILED is not stored, no
    "Error" live status is reported and no subprocess is started. *)
Theorem init_backend_error_not_recorded env self w e :
  backend_config_answer env = Raised e →
  let r := init_terraform env self w in
  r.1 = Raised e ∧
  sandbox r.2 = sandbox w ∧
  status_writes (trace r.2) = status_writes (trace w) ∧
  live_status (trace r.2) = live_status (trace w) ∧
  proc_calls (trace r.2) = proc_calls (trace w).
Proof.
  intros Hb r.
  assert (r = (Raised e,
               {| sandbox := sandbox w;
                  trace := SandboxMessage "running Terraform Init..."
                           :: LogInfo "Performing Terraform Init" :: trace w |})) as ->.
  { subst r. unfold init_terraform. unfold mbind, M_bind.
    unfold bind at 1 2 3. unfold emit at 1 2. cbn [fst snd sandbox trace].
    rewrite init_backend_config_spec, Hb. reflexivity. }
  done.
Qed.

Lemma init_backend_error_not_recorded_witness :
  let env := Sample.env Sample.staged_fs 0
               {[ Sample.model_name +:+ ".Remote State Provider" := "azure-backend" ]}
               false ∅ ∅ in
  let env' :=
    mkCollaborators (os_path_join env) (run_process env) (os_path_isdir env)
      (path_parent_absolute env) (os_listdir env) (shutil_rmtree env) (json_loads env)
      (str_of_exn env) (cloudshell_model_name env) (service_attributes env)
      (attr_handler_get_attribute env)
      (λ _, Some (CollaboratorError "ValueError" "no storage account"))
      (get_backend_secret_vars env) (get_variables_from_var_attributes env)
      (get_variables_from_terraform_input_attribute env) (get_apply_tag_attribute env)
      (get_variables_from_custom_tags_attribute env) (parse_and_save_outputs env)
      (get_default_tags env) (start_tagging_terraform_resources env)
      (initialize_provider env) (download_terraform_module env)
      (download_terraform_executable env) in
  (init_terraform env' Faults.staged_exec (Faults.world_with NONE NONE)).1
    = Raised (CollaboratorError "ValueError" "no storage account") ∧
  get_status (sandbox (init_terraform env' Faults.staged_exec
                         (Faults.world_with NONE NONE)).2) EXECUTE_STATUS = NONE.
Proof.
  intros env env'.
  destruct (init_backend_error_not_recorded env' Faults.staged_exec
              (Faults.world_with NONE NONE)
              (CollaboratorError "ValueError" "no storage account"))
    as (H1 & H2 & _).
  - vm_compute. reflexivity.
  - split; [exact H1|]. rewrite H2. vm_compute. reflexivity.
Defined.



(** ** The execution log *)

#[local] Arguments exec_log : simpl nomatch.
#[local] Arguments saved_outputs : simpl nomatch.
#[local] Arguments removed_trees : simpl nomatch.

(** X7. The execution log of a loggable command run with logging on: a
    process that exited adds exactly one transcript (start line, text, end
    line), at level INFO for exit code 0 and ERROR otherwise, and its text is
    the captured output sanitized twice, once by the runner and once more by
    [_write_to_exec_log], provided the captured output is UTF-8; a process
    whose output is not UTF-8, whatever its exit code, and a process that
    could not be run add nothing. *)
Theorem runner_transcript env self cmd command w :
  py_in command ALLOWED_LOGGING_CMDS = true →
  let res := run_process env (tform_command env self cmd) (_tf_workingdir self) in
  let r := _run_tf_proc_with_command env self cmd command true w in
  exec_log (trace r.2) =
    exec_log (trace w) ++
    match res with
    | Exited returncode output =>
        transcript (if (returncode =? 0)%Z then INFO_LOG_LEVEL else ERROR_LOG_LEVEL)
          command (get_clean_string output)
    | ExitedUndecodable _ _ => []
    | NotRun _ => []
    end.
Proof.
  intros Hcmd res r.
  subst r res. unfold _run_tf_proc_with_command, tform_command. unfold_m.
  rewrite Hcmd.
  destruct (run_process env _ _) as [[|p|p] out|[|p|p] umsg|msg]; simpl;
    rewrite ?app_nil_r, <- ?app_assoc; reflexivity.
Qed.

Lemma runner_transcript_witness :
  exec_log (trace (_run_tf_proc_with_command (Faults.failing_at "plan") Faults.staged_exec
                     ["plan"] PLAN true Sample.fresh_world).2)
  = transcript ERROR_LOG_LEVEL PLAN "Error: plan failed".
Proof.
  refine (runner_transcript (Faults.failing_at "plan") Faults.staged_exec
            ["plan"] PLAN Sample.fresh_world _).
  vm_compute. reflexivity.
Defined.

(** X8. [save_terraform_outputs] never writes to the execution log, however
    the [output] process ends: the command runs with logging off, and OUTPUT
    is not among the commands whose failure is logged. *)
Theorem output_never_logged env self w :
  exec_log (trace (save_terraform_outputs env self w).2) = exec_log (trace w).
Proof.
  unfold save_terraform_outputs, _run_tf_proc_with_command. unfold_m. simpl.
  destruct (run_process env _ _) as [[|p|p] out|[|p|p] umsg|msg]; simpl; try reflexivity.
  destruct (json_loads env out) as [e|j]; simpl; [reflexivity|].
  destruct (parse_and_save_outputs env j); reflexivity.
Qed.

(** X9. [save_terraform_outputs] hands a document to
    [parse_and_save_outputs] exactly when the [output] process exited with 0
    and its raw, unsanitized output, decoded as UTF-8, parsed as JSON.  It
    returns when that call returns; otherwise it raises the error of the first
    thing that failed: the runner's (a [TerraformExecutionError], or the
    [UnicodeDecodeError] of a failed process whose output is not UTF-8),
    [json.loads]'s or the collaborator's. *)
Theorem save_terraform_outputs_result env self w :
  let res := run_process env (tform_command env self output_cmd) (_tf_workingdir self) in
  let r := save_terraform_outputs env self w in
  match res with
  | Exited 0 output =>
      match json_loads env output with
      | inr json =>
          saved_outputs (trace r.2) = saved_outputs (trace w) ++ [json] ∧
          r.1 = match parse_and_save_outputs env json with
                | None => Returned ()
                | Some e => Raised e
                end
      | inl e => saved_outputs (trace r.2) = saved_outputs (trace w) ∧ r.1 = Raised e
      end
  | _ => saved_outputs (trace r.2) = saved_outputs (trace w) ∧
         r.1 = Raised (runner_error res)
  end.
Proof.
  cbv zeta. unfold save_terraform_outputs, _run_tf_proc_with_command, tform_command,
    output_cmd. unfold_m. simpl.
  destruct (run_process env _ _) as [[|p|p] out|[|p|p] umsg|msg]; simpl; try done.
  destruct (json_loads env out) as [e|j]; simpl; [done|].
  destruct (parse_and_save_outputs env j); simpl; rewrite ?app_nil_r; done.
Qed.

(** ** Flags and tagging inputs *)

Lemma assoc_fresh key items :
  key ∉ items.*1 → assoc key items = None.
Proof.
  induction items as [|[k v] rest IH]; [done|]. simpl.
  rewrite not_elem_of_cons. intros [Hne Hrest].
  destruct (String.eqb_spec k key); [congruence | by apply IH].
Qed.

Lemma backend_flags_of_items prefix items :
  NoDup ((prefix ++ items).*1) →
  map (λ key, "-backend-config=" +:+ key +:+ "=" +:+
              py_getitem (PyDict (prefix ++ items)) key) (items.*1)
  = map (λ kv, "-backend-config=" +:+ kv.1 +:+ "=" +:+ kv.2) items.
Proof.
  revert prefix. induction items as [|[k v] rest IH]; intros prefix Hnd; [done|].
  simpl. f_equal.
  - do 3 f_equal. unfold py_getitem.
    rewrite fmap_app in Hnd. apply NoDup_app in Hnd as (_ & Hdisj & _).
    assert (k ∉ prefix.*1) as Hk.
    { intros Hin. apply (Hdisj k Hin). simpl. apply elem_of_cons. by left. }
    clear -Hk. induction prefix as [|[k' v'] prefix IHp]; simpl.
    + by rewrite String.eqb_refl.
    + simpl in Hk. rewrite not_elem_of_cons in Hk. destruct Hk as [Hne Hk].
      destruct (String.eqb_spec k' k); [congruence | by apply IHp].
  - specialize (IH (prefix ++ [(k, v)])). rewrite <- app_assoc in IH. simpl in IH.
    by apply IH.
Qed.

(** X10. [init_terraform] turns the backend secrets into flags one for one:
    for secrets with distinct keys, the command line is [init], [-no-color]
    and then [-backend-config=key=value] for each secret, in the order of the
    mapping, and that is the command line the subprocess is started with. *)
Theorem init_backend_flags env self w secrets :
  backend_config_answer env = Returned (PyDict secrets) →
  NoDup (secrets.*1) →
  let flags := map (λ kv, "-backend-config=" +:+ kv.1 +:+ "=" +:+ kv.2) secrets in
  proc_calls (trace (init_terraform env self w).2)
  = proc_calls (trace w) ++
    [os_path_join env (_tf_workingdir self) "terraform.exe"
       :: "init" :: "-no-color" :: flags] ∧
  length flags = length secrets.
Proof.
  intros Hb Hnd flags.
  pose proof (init_terraform_spec env self w) as H. cbv zeta in H.
  rewrite Hb in H. destruct H as (-> & _).
  split; [|apply length_map].
  unfold tform_command, init_cmd. simpl. do 5 f_equal.
  exact (backend_flags_of_items [] secrets Hnd).
Qed.

Lemma init_backend_flags_witness :
  proc_calls (trace (init_terraform Faults.healthy Faults.staged_exec Sample.fresh_world).2)
  = [["/tmp/tmp8k2/REPO/hello/terraform.exe"; "init"; "-no-color";
      "-backend-config=access_key=s3cr3t"]].
Proof.
  refine (proj1 (init_backend_flags Faults.healthy Faults.staged_exec Sample.fresh_world
                   [("access_key", "s3cr3t")] _ _)).
  - vm_compute. reflexivity.
  - apply NoDup_singleton.
Defined.

Lemma inputs_dict_lookup (k : string) (tf_vars : list TfVar) :
  ∀ d : gmap string string,
  foldl (λ d tf_var, <[var_name tf_var := var_value tf_var]> d) d tf_vars !! k
  = match last_value k tf_vars with
    | Some v => Some v
    | None => d !! k
    end.
Proof.
  induction tf_vars as [|x rest IH]; intros d; [done|]. simpl. rewrite IH.
  destruct (last_value k rest); [done|].
  destruct (String.eqb_spec (var_name x) k) as [->|Hne].
  - by rewrite lookup_insert_eq.
  - by rewrite lookup_insert_ne.
Qed.

(** X11. The inputs [tag_terraform] hands to the tagging package: when
    tagging is on and the tag limit is respected, the package is called
    with a mapping in which every variable name has the value of its last
    occurrence, the variables mapped from attributes coming before those of
    the "Terraform Inputs" attribute, so that on a shared name the latter
    wins. *)
Theorem tagging_inputs_last_wins env self w :
  get_apply_tag_attribute env = true →
  size (dict_unpack2 (get_variables_from_custom_tags_attribute env)
          (get_default_tags env)) ≤ 50 →
  ∃ tags inputs,
    trace (tag_terraform env self w).2 !! 0
      = Some (TaggingStarted (_tf_workingdir self) tags inputs) ∧
    (∀ k, inputs !! k =
          last_value k (get_variables_from_var_attributes env ++
                        get_variables_from_terraform_input_attribute env)) ∧
    (∀ k v, last_value k (get_variables_from_terraform_input_attribute env) = Some v →
            inputs !! k = Some v).
Proof.
  intros Hon Hsmall. unfold tag_terraform. rewrite Hon. simpl.
  rewrite bool_decide_eq_false_2 by lia.
  eexists _, _. unfold_m. simpl.
  assert (∀ k, foldl (λ d tf_var, <[var_name tf_var := var_value tf_var]> d)
                 (∅ : gmap string string) (all_tf_vars env) !! k
               = last_value k (all_tf_vars env)) as Hlook.
  { intros k. rewrite inputs_dict_lookup, lookup_empty.
    by destruct (last_value k (all_tf_vars env)). }
  split; [|split].
  - destruct (start_tagging_terraform_resources env _ _ _); reflexivity.
  - exact Hlook.
  - intros k v Hv. rewrite Hlook. unfold all_tf_vars.
    revert Hv. generalize (get_variables_from_terraform_input_attribute env) as b.
    induction (get_variables_from_var_attributes env) as [|x a IH]; intros b Hv; [done|].
    simpl. by rewrite (IH b Hv).
Qed.

Lemma tagging_inputs_last_wins_witness :
  let env := Sample.env Sample.staged_fs 0 Sample.with_backend true
               {[ "a" := "1" ]} {[ "b" := "9" ]} in
  ∃ tags inputs,
    trace (tag_terraform env Faults.staged_exec Sample.fresh_world).2 !! 0
      = Some (TaggingStarted Sample.staged_dir tags inputs) ∧
    inputs !! "size" = Some "small".
Proof.
  intros env.
  destruct (tagging_inputs_last_wins env Faults.staged_exec Sample.fresh_world)
    as (tags & inputs & H0 & H1 & _).
  - reflexivity.
  - vm_compute. lia.
  - exists tags, inputs. split; [exact H0|]. rewrite H1. reflexivity.
Defined.

(** ** The working directory *)

Lemma prepare_tf_working_dir_cases env w :
  let stored := get_tf_working_dir (sandbox w) in
  _prepare_tf_working_dir env w =
  if _does_working_dir_exists env stored
  then (Returned stored,
        {| sandbox := sandbox w;
           trace := LogInfo ("Using existing working dir = " +:+ stored) :: trace w |})
  else match staged_by_downloader env with
       | Returned d =>
           (Returned d,
            {| sandbox := set_tf_working_dir d (sandbox w);
               trace := WorkingDirWritten d :: trace w |})
       | Raised e => (Raised e, w)
       | Diverged => (Diverged, w)
       end.
Proof.
  unfold _prepare_tf_working_dir, staged_by_downloader. unfold_m. simpl.
  destruct (_does_working_dir_exists env _); simpl; [done|].
  destruct (download_terraform_module env) as [e|d]; simpl; [done|].
  destruct (download_terraform_executable env d); simpl; done.
Qed.

(** X12. [_prepare_tf_working_dir]: a stored working directory that exists is
    returned as it is, whatever the downloader would answer, and the sandbox
    data stay as they are; otherwise the
    module and the executable are downloaded and the new directory is stored
    and returned; when a download raises, the stored path is left as it was.
    Whenever a directory is returned, it is the stored one afterwards. *)
Theorem prepare_tf_working_dir_result env w :
  let stored := get_tf_working_dir (sandbox w) in
  let r := _prepare_tf_working_dir env w in
  (∀ d, r.1 = Returned d → get_tf_working_dir (sandbox r.2) = d) ∧
  (_does_working_dir_exists env stored = true →
     r.1 = Returned stored ∧ sandbox r.2 = sandbox w) ∧
  (_does_working_dir_exists env stored = false →
     r.1 = staged_by_downloader env ∧
     ((∀ d, r.1 ≠ Returned d) → r.2 = w)).
Proof.
  intros stored r. subst r. rewrite prepare_tf_working_dir_cases. fold stored.
  destruct (_does_working_dir_exists env stored).
  - split; [by intros d [= <-]|]. split; [done|]. intros H. discriminate H.
  - split.
    + destruct (staged_by_downloader env); intros d' H; try discriminate H.
      by injection H as <-.
    + split; [intros H; discriminate H|]. intros _.
      destruct (staged_by_downloader env) as [d|e|]; simpl; split; try done.
      intros H. by destruct (H d).
Qed.

Lemma prepare_tf_working_dir_result_witness :
  let r := _prepare_tf_working_dir Faults.healthy (Faults.world_with APPLY_PASSED NONE) in
  r.1 = Returned Sample.staged_dir ∧
  sandbox r.2 = sandbox (Faults.world_with APPLY_PASSED NONE).
Proof.
  apply (prepare_tf_working_dir_result Faults.healthy (Faults.world_with APPLY_PASSED NONE)).
  vm_compute. reflexivity.
Defined.

(** ** The upward walk *)

Lemma find_tmp_folder_returned env fuel : ∀ dir p,
  find_tmp_folder env fuel dir = Returned p →
  ∃ n l, n < fuel ∧ p = ancestor env (S n) dir ∧
         os_listdir env p = inr l ∧ staging_listing l = true ∧
         ∀ i, i < n → ∃ li, os_listdir env (ancestor env (S i) dir) = inr li ∧
                            staging_listing li = false.
Proof.
  induction fuel as [|fuel IH]; intros dir p; [discriminate|].
  simpl. destruct (os_listdir env (path_parent_absolute env dir)) as [e|l] eqn:Hl;
    [discriminate|].
  fold (staging_listing l). destruct (staging_listing l) eqn:Hst.
  - intros [= <-]. exists 0, l. repeat split; [lia|done|done|]. intros i Hi. lia.
  - intros H. apply IH in H as (n & l' & Hn & -> & Hl' & Hst' & Hnear).
    exists (S n), l'. repeat split; [lia|done|done|].
    intros [|i] Hi; [exists l; by split|]. apply Hnear. lia.
Qed.

(** X13. Whatever directory the walk of [_delete_local_temp_dir] ends at is a
    proper ancestor of the working directory, reached within the iterations
    made, whose listing is exactly REPO and repo.zip in some order, and no
    nearer ancestor has such a listing; more iterations end at the same
    directory. *)
Theorem find_tmp_folder_sound env fuel dir p :
  find_tmp_folder env fuel dir = Returned p →
  (∃ n l, n < fuel ∧ p = ancestor env (S n) dir ∧
          os_listdir env p = inr l ∧
          (l = ["REPO"; "repo.zip"] ∨ l = ["repo.zip"; "REPO"]) ∧
          ∀ i, i < n → ∃ li, os_listdir env (ancestor env (S i) dir) = inr li ∧
                             staging_listing li = false) ∧
  ∀ fuel', fuel ≤ fuel' → find_tmp_folder env fuel' dir = Returned p.
Proof.
  intros H. apply find_tmp_folder_returned in H as (n & l & Hn & -> & Hl & Hst & Hnear).
  split.
  - exists n, l. repeat split; try done. by apply staging_listing_exact.
  - intros fuel' Hle. apply (find_tmp_folder_found env n dir fuel' l); [lia|done..].
Qed.

Lemma find_tmp_folder_sound_witness :
  find_tmp_folder Faults.healthy 7 Sample.staged_dir = Returned "/tmp/tmp8k2".
Proof.
  destruct (find_tmp_folder_sound Faults.healthy 2 Sample.staged_dir "/tmp/tmp8k2")
    as (_ & H).
  - vm_compute. reflexivity.
  - apply (H 7). lia.
Defined.

Lemma delete_local_temp_dir_cases env fuel dir w :
  _delete_local_temp_dir env fuel dir w =
  match find_tmp_folder env fuel dir with
  | Returned p =>
      match shutil_rmtree env p with
      | None => (Returned (),
                 {| sandbox := set_tf_working_dir "" (sandbox w);
                    trace := WorkingDirWritten "" :: TreeRemoved p :: trace w |})
      | Some e => (Raised e, w)
      end
  | Raised e => (Raised e, w)
  | Diverged => (Diverged, w)
  end.
Proof.
  unfold _delete_local_temp_dir. unfold_m.
  destruct (find_tmp_folder env fuel dir) as [p|e|]; [|done|done].
  destruct (shutil_rmtree env p); done.
Qed.

(** X14. [_delete_local_temp_dir] clears the stored path only after a
    removal that returned: when it returns, the stored path is empty and one
    directory, the one the walk ended at, was removed; when it does not
    return, the stored path and the trace are as before; and when
    [shutil.rmtree] raises, that error is the one raised. *)
Theorem delete_local_temp_dir_outcome env fuel dir w :
  let r := _delete_local_temp_dir env fuel dir w in
  (r.1 = Returned () →
     get_tf_working_dir (sandbox r.2) = "" ∧
     ∃ p, find_tmp_folder env fuel dir = Returned p ∧
          removed_trees (trace r.2) = removed_trees (trace w) ++ [p]) ∧
  (r.1 ≠ Returned () → r.2 = w) ∧
  (∀ p e, find_tmp_folder env fuel dir = Returned p → shutil_rmtree env p = Some e →
          r = (Raised e, w)).
Proof.
  intros r. subst r. rewrite delete_local_temp_dir_cases.
  destruct (find_tmp_folder env fuel dir) as [p|e|].
  - destruct (shutil_rmtree env p) as [e|] eqn:Hrm.
    + split; [intros H; discriminate H|]. split; [done|].
      intros p' e' [= <-] H. rewrite Hrm in H. by injection H as <-.
    + split; [intros _; split; [done|]; by exists p|].
      split; [intros H; by destruct H|].
      intros p' e' [= <-] H. rewrite Hrm in H. discriminate H.
  - split; [intros H; discriminate H|]. split; [done|]. intros p' e' H. discriminate H.
  - split; [intros H; discriminate H|]. split; [done|]. intros p' e' H. discriminate H.
Qed.

Lemma delete_local_temp_dir_outcome_witness :
  let env := Faults.with_rmtree Faults.healthy
               (λ p, Some (CollaboratorError "PermissionError" p)) in
  _delete_local_temp_dir env 3 Sample.staged_dir (Sample.staged_world Sample.staged_dir)
  = (Raised (CollaboratorError "PermissionError" "/tmp/tmp8k2"),
     Sample.staged_world Sample.staged_dir).
Proof.
  intros env.
  destruct (delete_local_temp_dir_outcome env 3 Sample.staged_dir
              (Sample.staged_world Sample.staged_dir)) as (_ & _ & H).
  apply (H "/tmp/tmp8k2"); reflexivity.
Defined.

(** X15. After [_delete_local_temp_dir] returned, the next
    [_prepare_tf_working_dir] never reuses a directory: the stored path is
    empty, so the module and the executable are downloaded again, whatever
    [os.path.isdir] would answer. *)
Theorem prepare_after_delete env fuel dir w :
  let r := _delete_local_temp_dir env fuel dir w in
  r.1 = Returned () →
  (_prepare_tf_working_dir env r.2).1 = staged_by_downloader env.
Proof.
  intros r Hr.
  assert (get_tf_working_dir (sandbox r.2) = "") as Hdir.
  { subst r. rewrite delete_local_temp_dir_cases in Hr |- *.
    destruct (find_tmp_folder env fuel dir) as [p|e|]; try discriminate Hr.
    destruct (shutil_rmtree env p); [discriminate Hr | reflexivity]. }
  rewrite prepare_tf_working_dir_cases. cbv zeta. rewrite Hdir.
  unfold _does_working_dir_exists. simpl.
  by destruct (staged_by_downloader env).
Qed.

Lemma prepare_after_delete_witness :
  (_prepare_tf_working_dir Faults.healthy
     (_delete_local_temp_dir Faults.healthy 3 Sample.staged_dir
        (Sample.staged_world Sample.staged_dir)).2).1
  = Returned Sample.staged_dir.
Proof.
  apply (prepare_after_delete Faults.healthy 3 Sample.staged_dir
           (Sample.staged_world Sample.staged_dir)).
  vm_compute. reflexivity.
Defined.

(** ** The destroy workflow *)

(** X16. [TerraformShell.destroy_terraform] never gets past its
    precondition check: [_validate_remote_backend_or_existing_working_dir]
    evaluates [ATTRIBUTE_NAMES.REMOTE_STATE_PROVIDER], which the class of
    constants.py does not define, so every call of the workflow raises
    [AttributeError] and leaves the sandbox data and the trace as they were;
    [_using_remote_state] raises the same error on every call.  A name the
    class does define is found: [TF_INPUTS] is the one name that gives
    "Terraform Inputs". *)
Theorem destroy_stops_at_precondition env fuel w :
  TerraformShell.destroy_terraform env fuel w =
  (Raised (AttributeError
             "type object 'ATTRIBUTE_NAMES' has no attribute 'REMOTE_STATE_PROVIDER'"), w) ∧
  _using_remote_state env w =
  (Raised (AttributeError
             "type object 'ATTRIBUTE_NAMES' has no attribute 'REMOTE_STATE_PROVIDER'"), w) ∧
  (∀ name, class_getattr "ATTRIBUTE_NAMES" ATTRIBUTE_NAMES name = inr "Terraform Inputs"
           ↔ name = "TF_INPUTS").
Proof.
  split; [reflexivity|]. split; [reflexivity|].
  intros name. unfold class_getattr, ATTRIBUTE_NAMES. cbn [assoc].
  destruct (String.eqb_spec "TF_OUTPUTS" name) as [<-|H1]; [by split|].
  destruct (String.eqb_spec "TF_SENSIITVE_OUTPUTS" name) as [<-|H2]; [by split|].
  destruct (String.eqb_spec "TF_INPUTS" name) as [<-|H3]; [by split|].
  split; [discriminate | congruence].
Qed.

(** ** The execute workflow: the other ways it ends *)

(** X20. The execute workflow behind a closed gate: when [can_execute_run]
    is false, the workflow writes the explanation to the sandbox messages and
    raises it as an [Exception]; the working directory has been prepared by
    then, but the provider is not initialized, no subprocess is started and no
    status is written. *)
Theorem execute_blocked env fuel w0 dir w1 :
  _prepare_tf_working_dir env w0 = (Returned dir, w1) →
  can_execute_run (sandbox w0) = false →
  execute_terraform env fuel w0 =
    (Raised (PyException execute_blocked_message),
     {| sandbox := sandbox w1;
        trace := SandboxMessage execute_blocked_message :: trace w1 |}) ∧
  proc_calls (trace w1) = proc_calls (trace w0) ∧
  status_writes (trace w1) = status_writes (trace w0) ∧
  sb_status (sandbox w1) = sb_status (sandbox w0).
Proof.
  intros Hprep Hgate.
  pose proof (prepare_tf_working_dir_frame env w0) as (Hsb & Hsw & Hpc).
  rewrite Hprep in Hsb, Hsw, Hpc. cbn [snd] in Hsb, Hsw, Hpc.
  split; [|done].
  unfold execute_terraform, _create_tf_proc_executer.
  unfold mbind at 1, M_bind at 1, bind at 1. rewrite Hprep.
  unfold_m. simpl. by rewrite (can_execute_run_sb_status _ _ Hsb), Hgate.
Qed.

Lemma execute_blocked_witness :
  (execute_terraform Faults.healthy 3 (Faults.world_with APPLY_FAILED NONE)).1
  = Raised (PyException execute_blocked_message).
Proof.
  destruct (execute_blocked Faults.healthy 3 (Faults.world_with APPLY_FAILED NONE)
              Sample.staged_dir
              (_prepare_tf_working_dir Faults.healthy
                 (Faults.world_with APPLY_FAILED NONE)).2) as (H & _).
  - vm_compute. reflexivity.
  - vm_compute. reflexivity.
  - rewrite H. reflexivity.
Defined.

Lemma backend_config_answer_ends env : backend_config_answer env ≠ Diverged.
Proof.
  unfold backend_config_answer.
  destruct (service_attributes env !! _) as [p|]; [|done].
  destruct (String.eqb p ""); [done|].
  destruct (generate_backend_cfg_file env p); [done|].
  by destruct (get_backend_secret_vars env p).
Qed.

(** What INIT leaves behind, whatever happens in it. *)
Lemma init_terraform_summary env self w :
  let r := init_terraform env self w in
  (r.1 = Returned () ∨ ∃ e, r.1 = Raised e) ∧
  (∃ calls, proc_calls (trace r.2) = proc_calls (trace w) ++ calls ∧
            Forall (λ argv, argv !! 1 = Some "init") calls) ∧
  (∃ writes, status_writes (trace r.2) = status_writes (trace w) ++ writes ∧
             Forall (λ kv, kv = (EXECUTE_STATUS, INIT_FAILED)) writes).
Proof.
  intros r. pose proof (init_terraform_spec env self w) as H. cbv zeta in H.
  fold r in H. pose proof (backend_config_answer_ends env) as Hends.
  destruct (backend_config_answer env) as [[| s |secrets]|e|]; [| | | |done].
  - destruct H as (Ho & Hpc & _ & Hsw). split; [right; by eexists|].
    split; [exists []|exists []]; rewrite app_nil_r; by split.
  - destruct H as (Ho & Hpc & _ & Hsw). split; [right; by eexists|].
    split; [exists []|exists []]; rewrite app_nil_r; by split.
  - destruct H as (Hpc & H).
    assert (∃ calls, proc_calls (trace r.2) = proc_calls (trace w) ++ calls ∧
                     Forall (λ argv, argv !! 1 = Some "init") calls) as Hcalls.
    { eexists [_]. split; [exact Hpc|]. by constructor. }
    destruct (exit_ok _); destruct H as (Ho & _ & Hsw).
    + split; [by left|]. split; [exact Hcalls|].
      exists []. rewrite app_nil_r. by split.
    + split; [right; by eexists|]. split; [exact Hcalls|].
      eexists [_]. split; [exact Hsw|]. by constructor.
  - destruct H as (Ho & Hpc & _ & Hsw). split; [right; by eexists|].
    split; [exists []|exists []]; rewrite app_nil_r; by split.
Qed.

(** X21. No run of [TerraformShell.execute_terraform] gets past INIT: every
    run ends with an exception; the only subprocesses a run starts are [init]
    commands, so PLAN, APPLY and OUTPUT never run; and the only status a run
    can write is INIT_FAILED, so no run stores APPLY_PASSED or APPLY_FAILED. *)
Theorem execute_never_past_init env fuel w0 :
  let r := execute_terraform env fuel w0 in
  (∃ e, r.1 = Raised e) ∧
  (∃ calls, proc_calls (trace r.2) = proc_calls (trace w0) ++ calls ∧
            Forall (λ argv, argv !! 1 = Some "init") calls) ∧
  (∃ writes, status_writes (trace r.2) = status_writes (trace w0) ++ writes ∧
             Forall (λ kv, kv = (EXECUTE_STATUS, INIT_FAILED)) writes).
Proof.
  intros r.
  pose proof (prepare_tf_working_dir_frame env w0) as (_ & Hsw1 & Hpc1).
  pose proof (prepare_tf_working_dir_cases env w0) as Hcases. cbv zeta in Hcases.
  destruct (_prepare_tf_working_dir env w0) as [[dir|e|] w1] eqn:Hprep;
    cbn [snd] in Hsw1, Hpc1.
  - destruct (can_execute_run (sandbox w1)) eqn:Hgate.
    + destruct (initialize_provider env) as [e|] eqn:Hprov.
      * assert (r = (Raised e, w1)) as ->.
        { subst r. unfold execute_terraform, _create_tf_proc_executer.
          unfold mbind at 1, M_bind at 1, bind at 1. rewrite Hprep.
          unfold_m. simpl. by rewrite Hgate, Hprov. }
        split; [by eexists|].
        split; [exists []|exists []]; rewrite app_nil_r; by split.
      * pose proof (execute_terraform_unfold env fuel w0 dir w1 Hprep Hgate Hprov) as Hun.
        fold r in Hun.
        pose proof (init_terraform_summary env (TfProcExec_init (sandbox w1))
                      {| sandbox := sandbox w1; trace := ProviderInitialized :: trace w1 |})
          as (Ho & (calls & Hpc & Hcalls) & (writes & Hsw & Hwrites)).
        cbv zeta in Ho, Hpc, Hsw.
        destruct (init_terraform env _ _) as [o w2]. cbn [fst snd trace] in *.
        simpl proc_calls in Hpc. simpl status_writes in Hsw.
        assert (r.2 = w2 ∧ ∃ e, r.1 = Raised e) as (Hr2 & Hr1).
        { destruct Ho as [-> | [e ->]]; rewrite Hun; split; by eauto. }
        split; [exact Hr1|]. rewrite Hr2.
        split; [exists calls; by rewrite Hpc, Hpc1 | exists writes; by rewrite Hsw, Hsw1].
    + assert (r = (Raised (PyException execute_blocked_message),
                   {| sandbox := sandbox w1;
                      trace := SandboxMessage execute_blocked_message :: trace w1 |})) as ->.
      { subst r. unfold execute_terraform, _create_tf_proc_executer.
        unfold mbind at 1, M_bind at 1, bind at 1. rewrite Hprep.
        unfold_m. simpl. by rewrite Hgate. }
      split; [by eexists|]. cbn [snd trace]. simpl.
      split; [exists []|exists []]; rewrite app_nil_r; by split.
  - assert (r = (Raised e, w1)) as ->.
    { subst r. unfold execute_terraform.
      unfold mbind at 1, M_bind at 1, bind at 1. by rewrite Hprep. }
    split; [by eexists|].
    split; [exists []|exists []]; rewrite app_nil_r; by split.
  - exfalso. destruct (_does_working_dir_exists env _); [discriminate Hcases|].
    unfold staged_by_downloader in Hcases.
    destruct (download_terraform_module env) as [e|d]; [discriminate Hcases|].
    destruct (download_terraform_executable env d); discriminate Hcases.
Qed.

(** X22. [tag_terraform] leaves no record of what it did: whether it skips,
    raises the error of the tag limit or ends as the tagging package ends, it
    writes no status, reports no live status, starts no subprocess and leaves
    the sandbox data as they were. *)
Theorem tag_terraform_records_nothing env self w :
  let r := tag_terraform env self w in
  sandbox r.2 = sandbox w ∧
  status_writes (trace r.2) = status_writes (trace w) ∧
  live_status (trace r.2) = live_status (trace w) ∧
  proc_calls (trace r.2) = proc_calls (trace w).
Proof.
  cbv zeta. unfold tag_terraform.
  destruct (get_apply_tag_attribute env); simpl; [|done].
  destruct (bool_decide _); unfold_m; simpl; [done|].
  destruct (start_tagging_terraform_resources env _ _ _); done.
Qed.

(** ** The pattern [DIRTY_CHARS] *)

Lemma string_length_app a b :
  String.length (a +:+ b) = String.length a + String.length b.
Proof. induction a as [|c a IH]; simpl; [done | by rewrite IH]. Qed.

Lemma in_class_range lo hi c :
  in_class [(lo, hi)] c = true ↔ (lo ≤ N_of_ascii c ∧ N_of_ascii c ≤ hi)%N.
Proof.
  unfold in_class. cbn [existsb fst snd].
  rewrite orb_false_r, andb_true_iff, !N.leb_le. done.
Qed.

Lemma class_codes :
  code "0" = 48%N ∧ code "?" = 63%N ∧ code " " = 32%N ∧ code "/" = 47%N ∧
  code "@" = 64%N ∧ code "~" = 126%N.
Proof. repeat split. Qed.

Lemma intermediate_not_param c :
  in_class class_intermediate c = true → in_class class_param c = false.
Proof.
  unfold class_intermediate, class_param. destruct class_codes as (-> & -> & -> & -> & _).
  rewrite in_class_range. intros H. apply not_true_iff_false.
  rewrite in_class_range. lia.
Qed.

Lemma final_not_param c :
  in_class class_final c = true → in_class class_param c = false.
Proof.
  unfold class_final, class_param.
  destruct class_codes as (-> & -> & _ & _ & -> & ->).
  rewrite in_class_range. intros H. apply not_true_iff_false.
  rewrite in_class_range. lia.
Qed.

Lemma final_not_intermediate c :
  in_class class_final c = true → in_class class_intermediate c = false.
Proof.
  unfold class_final, class_intermediate.
  destruct class_codes as (_ & _ & -> & -> & -> & ->).
  rewrite in_class_range. intros H. apply not_true_iff_false.
  rewrite in_class_range. lia.
Qed.

Lemma star_run_all cls s : ∀ s' k r,
  all_in_class cls s = true → star_run cls s' k = Some r →
  star_run cls (s +:+ s') k = Some r.
Proof.
  induction s as [|c t IH]; intros s' k r Hall Hr; [exact Hr|].
  simpl in Hall. apply andb_true_iff in Hall as [Hc Ht]. simpl.
  by rewrite Hc, (IH s' k r Ht Hr).
Qed.

Lemma star_run_stop cls c t k :
  in_class cls c = false → star_run cls (String c t) k = k (String c t).
Proof. intros H. simpl. by rewrite H. Qed.

(** The part of [DIRTY_CHARS] after ESC. *)
Lemma dirty_chars_after_esc t :
  re_match DIRTY_CHARS (String ESC t) Some =
  match t with
  | EmptyString => None
  | String c t' =>
      if in_class class_Fe c then Some t'
      else if in_class [(code "[", code "[")] c
           then star_run class_param t'
                  (λ s', star_run class_intermediate s'
                           (λ s'', re_match (Class class_final) s'' Some))
           else None
  end.
Proof.
  unfold DIRTY_CHARS. rewrite re_match_class_first.
  assert (in_class [(code ESC, code ESC)] ESC = true) as -> by reflexivity.
  destruct t as [|c t']; [reflexivity|]. cbn [re_match].
  fold class_Fe. destruct (in_class class_Fe c); reflexivity.
Qed.

(** X23. What [DIRTY_CHARS] matches at the start of a text is never
    shorter than two characters and begins with ESC.  ESC followed by a
    character from [@] to [Z] or from [\] to [_] is a match of exactly two
    characters; ESC at the end of the text, or followed by a character that
    is neither of those nor [[], is no match. *)
Theorem dirty_chars_two_character_escapes :
  (∀ s n, match_len DIRTY_CHARS s = Some n → (∃ t, s = String ESC t) ∧ 2 ≤ n) ∧
  (∀ c rest, in_class class_Fe c = true →
     match_len DIRTY_CHARS (String ESC (String c rest)) = Some 2) ∧
  match_len DIRTY_CHARS (String ESC EmptyString) = None ∧
  (∀ c rest, in_class class_Fe c = false → c ≠ "["%char →
     match_len DIRTY_CHARS (String ESC (String c rest)) = None).
Proof.
  split; [|split; [|split]].
  - intros s n H. destruct (match_len_dirty s n H) as ([t ->] & _).
    split; [by eexists|].
    unfold match_len in H. rewrite dirty_chars_after_esc in H.
    destruct t as [|c t']; [discriminate H|].
    destruct (in_class class_Fe c).
    + injection H as <-. simpl. lia.
    + destruct (in_class [(code "[", code "[")] c); [|discriminate H].
      match type of H with
      | match ?m with _ => _ end = _ => destruct m as [rest|] eqn:E; [|discriminate H]
      end.
      injection H as <-.
      apply star_run_shorter in E; [simpl; lia|].
      intros s' r'. apply star_run_shorter.
      intros s'' r''. apply (re_match_shorter (Class class_final)).
      by intros ? ? [= <-].
  - intros c rest Hc. unfold match_len. rewrite dirty_chars_after_esc, Hc.
    simpl. f_equal. lia.
  - reflexivity.
  - intros c rest Hc Hne. unfold match_len. rewrite dirty_chars_after_esc, Hc.
    destruct (in_class [(code "[", code "[")] c) eqn:Hb; [|reflexivity].
    exfalso. apply Hne. apply in_class_range in Hb.
    rewrite <- (ascii_N_embedding c).
    assert (N_of_ascii c = code "[") as -> by lia. reflexivity.
Qed.

(** X24. [DIRTY_CHARS] matches a whole control sequence: ESC, [[], any
    number of parameter characters ([0] to [?]), any number of intermediate
    characters (space to [/]) and a final character ([@] to [~]); the match is
    the sequence and no more, whatever text follows. *)
Theorem dirty_chars_control_sequence params inters final rest :
  all_in_class class_param params = true →
  all_in_class class_intermediate inters = true →
  in_class class_final final = true →
  match_len DIRTY_CHARS
    (String ESC (String "[" (params +:+ inters +:+ String final rest)))
  = Some (3 + String.length params + String.length inters).
Proof.
  intros Hp Hi Hf. unfold match_len. rewrite dirty_chars_after_esc.
  assert (in_class class_Fe "[" = false) as -> by reflexivity.
  assert (in_class [(code "[", code "[")] "[" = true) as -> by reflexivity.
  assert (star_run class_intermediate (inters +:+ String final rest)
            (λ s'', re_match (Class class_final) s'' Some) = Some rest) as Hinter.
  { apply star_run_all; [exact Hi|].
    rewrite star_run_stop by (by apply final_not_intermediate).
    cbn [re_match]. by rewrite Hf. }
  assert (star_run class_param (inters +:+ String final rest)
            (λ s', star_run class_intermediate s'
                     (λ s'', re_match (Class class_final) s'' Some)) = Some rest)
    as Hparam.
  { destruct inters as [|c inters'].
    - change (EmptyString +:+ String final rest) with (String final rest) in *.
      rewrite star_run_stop by (by apply final_not_param). exact Hinter.
    - simpl in Hi. apply andb_true_iff in Hi as [Hc _].
      change (String c inters' +:+ String final rest)
        with (String c (inters' +:+ String final rest)) in *.
      rewrite star_run_stop by (by apply intermediate_not_param). exact Hinter. }
  rewrite (star_run_all class_param params _ _ rest Hp Hparam).
  f_equal. simpl. rewrite !string_length_app. simpl. lia.
Qed.

Lemma dirty_chars_control_sequence_witness :
  match_len DIRTY_CHARS (esc "[31;1mError" +:+ esc "[0m") = Some 7.
Proof.
  apply (dirty_chars_control_sequence "31;1" "" "m" ("Error" +:+ esc "[0m"));
    reflexivity.
Defined.
